(** * Tadau: a wrapper around the Google Analytics measurement protocol

    Shallow embedding of the two implementations of the repository,
    [src/py/measurement_protocol.py] (module [Py]) and
    [src/tadau/measurement_protocol.py] (module [Legacy]), followed by
    the properties of the event-sending routines.

    Conventions of the embedding:
    - a Python scalar is a [value]; a [dict] with string keys is a
      [gmap string value]; iterating over [row.items()] visits the
      entries in the order of [map_to_list] (the insertion order of a
      Python dict is not recorded, the keys being pairwise distinct it
      has no influence on the mapping that is built);
    - a Python [str] is a [string], the sequence of its bytes; a
      character outside ASCII is made of bytes above 127, which the
      regular expression of the name removes as well; [lower] and
      [strip] are given on the ASCII range;
    - effects are explicit: a computation is a function from a state to
      a result (a value or a raised exception) and a new state;
    - the HTTP transport, the UUID generator, the YAML loader and the
      interpreter flag [__debug__] are collected in an environment;
    - [json.dumps(payload)] is represented by the payload itself, taken
      at the moment of the call;
    - converting an [int] to [str], in an f-string or in [json.dumps],
      raises [ValueError] when the [int] has more decimal digits than
      [sys.get_int_max_str_digits()] allows; the limit is a component
      of the environment, [0] meaning that there is none. The
      credentials given to [__init__] of [Py] are strings, as they are
      annotated, and their conversion does not fail. *)

From Stdlib Require Import PrimFloat Ascii.
From stdpp Require Import gmap strings list fin_maps pretty.

(** ** Python values *)

Inductive value :=
| VNone
| VBool (b : bool)
| VInt (z : Z)
| VFloat (f : float)
| VStr (s : string).

Abbreviation dict := (gmap string value).

(** [bool(v)] *)
Definition truthy (v : value) : bool :=
  match v with
  | VNone => false
  | VBool b => b
  | VInt z => negb (Z.eqb z 0)
  | VFloat f => negb (PrimFloat.eqb f 0%float)
  | VStr s => negb (String.eqb s "")
  end.

(** [v is None] *)
Definition is_none (v : value) : bool :=
  match v with VNone => true | _ => false end.

(** [d.get(k)] *)
Definition dict_get (d : dict) (k : string) : value :=
  match d !! k with Some v => v | None => VNone end.

(** [k in l] for a list of strings *)
Definition str_in (k : string) (l : list string) : bool :=
  existsb (String.eqb k) l.

(** ** Characters and strings *)

Definition char_between (lo hi c : ascii) : bool :=
  (Ascii.N_of_ascii lo <=? Ascii.N_of_ascii c)%N
  && (Ascii.N_of_ascii c <=? Ascii.N_of_ascii hi)%N.

Fixpoint str_filter (keep : ascii -> bool) (s : string) : string :=
  match s with
  | EmptyString => EmptyString
  | String c s' =>
      if keep c then String c (str_filter keep s') else str_filter keep s'
  end.

Fixpoint str_map (f : ascii -> ascii) (s : string) : string :=
  match s with
  | EmptyString => EmptyString
  | String c s' => String (f c) (str_map f s')
  end.

(** [s.lower()] *)
Definition char_lower (c : ascii) : ascii :=
  if char_between "A"%char "Z"%char c
  then Ascii.ascii_of_N (Ascii.N_of_ascii c + 32)
  else c.

Definition str_lower (s : string) : string := str_map char_lower s.

(** The characters removed by [s.strip()]: tab, line feed, vertical tab,
    form feed, carriage return, the four separators 28..31 and space. *)
Definition char_isspace (c : ascii) : bool :=
  let n := Ascii.N_of_ascii c in
  ((9 <=? n) && (n <=? 13) || (28 <=? n) && (n <=? 32))%N.

Fixpoint str_lstrip (s : string) : string :=
  match s with
  | EmptyString => EmptyString
  | String c s' => if char_isspace c then str_lstrip s' else s
  end.

Definition str_strip (s : string) : string :=
  String.rev (str_lstrip (String.rev (str_lstrip s))).

(** ** Exceptions, results and the state-and-exception monad *)

Inductive exn :=
| AssertionError (msg : string)
| AttributeError
| KeyError (key : string)
| TypeError
| ValueError
| RequestException.

Inductive result (A : Type) :=
| Ok (a : A)
| Raise (e : exn).
Arguments Ok {A} a.
Arguments Raise {A} e.

Definition M (S A : Type) : Type := S -> result A * S.

Definition ret {S A} (a : A) : M S A := fun s => (Ok a, s).

Definition raise {S A} (e : exn) : M S A := fun s => (Raise e, s).

Definition bind {S A B} (c : M S A) (k : A -> M S B) : M S B :=
  fun s =>
    match c s with
    | (Ok a, s') => k a s'
    | (Raise e, s') => (Raise e, s')
    end.

Notation "'let*' x ':=' c1 'in' c2" := (bind c1 (fun x => c2))
  (at level 10, x name, c1 at level 100, c2 at level 200).
Notation "c1 >>> c2" := (bind c1 (fun _ => c2))
  (at level 95, right associativity).

Definition gets {S A} (f : S -> A) : M S A := fun s => (Ok (f s), s).

Definition modify {S} (f : S -> S) : M S unit := fun s => (Ok tt, f s).

(** [result] of a pure computation, turned into a computation *)
Definition of_result {S A} (r : result A) : M S A := fun s => (r, s).

(** [try: body  except Exception: handler] *)
Definition try_except {S} (body : M S unit) (handler : exn -> M S unit)
  : M S unit :=
  fun s =>
    match body s with
    | (Ok tt, s') => (Ok tt, s')
    | (Raise e, s') => handler e s'
    end.

(** [for x in l: body x] *)
Fixpoint for_each {S A} (body : A -> M S unit) (l : list A) : M S unit :=
  match l with
  | [] => ret tt
  | x :: l' => body x >>> for_each body l'
  end.

(** [row[k]] *)
Definition dict_getitem {S} (d : dict) (k : string) : M S value :=
  match d !! k with
  | Some v => ret v
  | None => raise (KeyError k)
  end.

(** ** The outside world: HTTP requests, log records, UUIDs *)

Record event := Event {
  ev_name : string;
  ev_params : dict
}.

Record payload := Payload {
  non_personalized_ads : bool;
  client_id : string;
  user_id : option string;
  events : list event
}.

Record request := Request {
  url : string;
  data : payload
}.

Inductive level := DEBUG | INFO | WARNING | ERROR.

Inductive message :=
| MsgInvalidInstance (api_secret measurement_id : value)
| MsgConfigNotFound (path : string)
| MsgConfigYamlError (path : string)
| MsgEventsEmpty
| MsgEmptyName
| MsgInvalidParam (k : string) (v : value)
| MsgSent (p : payload)
| MsgErrorSending (row : dict).

Record world := World {
  sent : list request;          (* calls of requests.post, oldest first *)
  log : list (level * message); (* log records, oldest first *)
  uuid_count : nat              (* number of UUIDs generated so far *)
}.

(** The recognised keys of a configuration file, as [yaml.safe_load]
    returns them; [cfg_opt_in = None] when the key is absent. *)
Record config := Config {
  cfg_api_secret : value;
  cfg_measurement_id : value;
  cfg_opt_in : option value;
  cfg_fixed_dimensions : option dict
}.

Inductive load_result :=
| FileNotFoundError
| YAMLError
| Loaded (c : option config). (* [None]: an empty document or mapping *)

Record env := Env {
  uuid4 : nat -> string;                           (* str(uuid.uuid4()) *)
  requests_post : nat -> request -> option exn;    (* the n-th POST *)
  float_str : float -> string;                     (* str(f) *)
  yaml_load : string -> load_result;               (* open + safe_load *)
  __debug__ : bool;
  int_max_str_digits : nat        (* sys.get_int_max_str_digits(); 0: none *)
}.

Section WithEnv.
Context (E : env).

(** [str(v)], when the conversion succeeds *)
Definition py_str (v : value) : string :=
  match v with
  | VNone => "None"
  | VBool true => "True"
  | VBool false => "False"
  | VInt z => pretty z
  | VFloat f => float_str E f
  | VStr s => s
  end.

(** The number of decimal digits of an integer. *)
Definition int_digits (z : Z) : nat := String.length (pretty (Z.abs z)).

(** The conversion of [v] to [str] succeeds: the interpreter refuses to
    convert an integer of more than [int_max_str_digits] digits, unless
    the limit is 0. *)
Definition printable (v : value) : bool :=
  match v with
  | VInt z =>
      (int_max_str_digits E =? 0) || (int_digits z <=? int_max_str_digits E)
  | _ => true
  end.

(** [f'{v}'] *)
Definition format (v : value) : result string :=
  if printable v then Ok (py_str v) else Raise ValueError.

(** Every value of the dict converts to [str]. *)
Definition serialisable (d : dict) : bool :=
  bool_decide (map_Forall (fun _ v => printable v = true) d).

(** [json.dumps(payload)]: the encoder converts the integers like
    [str]; the result stands for the serialised text. *)
Definition json_dumps (p : payload) : result payload :=
  if forallb (fun ev => serialisable (ev_params ev)) (events p) then Ok p
  else Raise ValueError.

Definition logging (l : level) (m : message) : M world unit :=
  modify (fun w => World (sent w) (log w ++ [(l, m)]) (uuid_count w)).

Definition uuid_uuid4 : M world string :=
  fun w => (Ok (uuid4 E (uuid_count w)),
            World (sent w) (log w) (S (uuid_count w))).

Definition post (r : request) : M world unit :=
  fun w =>
    let w' := World (sent w ++ [r]) (log w) (uuid_count w) in
    match requests_post E (length (sent w)) r with
    | None => (Ok tt, w')
    | Some e => (Raise e, w')
    end.
End WithEnv.

(** ** [src/py/measurement_protocol.py] *)

Module Py.

Definition _GA_COLLECT_URL : string :=
  "https://www.google-analytics.com/mp/collect".

Definition _GA_REQUEST_KEYS : list string :=
  ["name"; "client_id"; "user_id"].

Definition _GA_RESERVERD_KEYS : list string :=
  ["api_secret"; "measurement_id"; "app_instance_id"; "uuid";
   "timestamp_micros"].

(** [key not in reserved_keys and value is not None and value], as the
    condition of an [if]. *)
Definition _is_valid_param (key : string) (v : value)
    (reserved_keys : list string) : bool :=
  negb (str_in key reserved_keys) && negb (is_none v) && truthy v.

(** The character class [[a-zA-Z0-9-]] of the regular expression. *)
Definition in_class (c : ascii) : bool :=
  char_between "a" "z" c || char_between "A" "Z" c
  || char_between "0" "9" c || Ascii.eqb c "-".

(** [re.sub(r'[^a-zA-Z0-9-]', '', text)]; [re.sub] raises [TypeError]
    when [text] is not a string. *)
Definition _format_to_alphanumeric (text : value) : result string :=
  match text with
  | VStr s => Ok (str_filter in_class s)
  | _ => Raise TypeError
  end.

Record Tadau := mkTadau {
  _api_url : string;
  _reserved_keys : list string;
  _request_keys : list string;
  api_secret : value;
  measurement_id : value;
  opt_in : value;
  _target_url : string;
  fixed_dimensions : dict
}.

(** The state of a method call: the reporter object and the world. *)
Record state := State {
  self : Tadau;
  io : world
}.

Definition lift {A} (c : M world A) : M state A :=
  fun s => let (r, w) := c (io s) in (r, State (self s) w).

Definition with_fixed_dimensions (t : Tadau) (d : dict) : Tadau :=
  mkTadau (_api_url t) (_reserved_keys t) (_request_keys t)
    (api_secret t) (measurement_id t) (opt_in t) (_target_url t) d.

(** [self.fixed_dimensions[k] = v]: the dict object held by the reporter
    is updated in place. *)
Definition fixed_dimensions_setitem (k : string) (v : value) : M state unit :=
  modify (fun s =>
    State (with_fixed_dimensions (self s) (<[k := v]> (fixed_dimensions (self s))))
          (io s)).

(** [opt_in.lower().strip() == 'true']; a value that is not a string has
    no method [lower]. *)
Definition _is_opt_in (opt_in : value) : result bool :=
  match opt_in with
  | VStr s => Ok (String.eqb (str_strip (str_lower s)) "true")
  | _ => Raise AttributeError
  end.

Section WithEnv.
Context (E : env).

Definition _is_valid_instance (self : Tadau) : M world bool :=
  if negb (truthy (api_secret self)) || negb (truthy (measurement_id self))
  then
    logging ERROR (MsgInvalidInstance (api_secret self) (measurement_id self))
    >>> ret false
  else ret true.

Definition _load_config_from_yaml_file (config_file_location : string)
  : M world (option config) :=
  match yaml_load E config_file_location with
  | Loaded loaded_config => ret loaded_config
  | FileNotFoundError =>
      logging ERROR (MsgConfigNotFound config_file_location) >>> ret None
  | YAMLError =>
      logging ERROR (MsgConfigYamlError config_file_location) >>> ret None
  end.

Definition invalid_instance_message (self : Tadau) : string :=
  "Tadau: Class could not be initiated because api_secret and/or"
  +:+ " measurement_id is invalid (" +:+ py_str E (api_secret self)
  +:+ ", " +:+ py_str E (measurement_id self) +:+ ")".

(** The arguments are keyword-only; [fixed_dimensions = None] and
    [config_file_location = None] stand for Python's [None]. *)
Definition __init__ (api_secret measurement_id opt_in : value)
    (fixed_dimensions : option dict) (config_file_location : option string)
  : M world Tadau :=
  let* config :=
    match config_file_location with
    | Some path =>
        if truthy (VStr path) then _load_config_from_yaml_file path
        else ret None
    | None => ret None
    end in
  let* args :=
    match config with
    | Some c =>
        let* o :=
          of_result
            (_is_opt_in
               (match cfg_opt_in c with Some v => v | None => VStr "false" end))
        in
        ret (cfg_api_secret c, cfg_measurement_id c, VBool o,
             cfg_fixed_dimensions c)
    | None => ret (api_secret, measurement_id, opt_in, fixed_dimensions)
    end in
  let '(api_secret, measurement_id, opt_in, fixed_dimensions) := args in
  let self :=
    mkTadau _GA_COLLECT_URL _GA_RESERVERD_KEYS _GA_REQUEST_KEYS
      api_secret measurement_id opt_in
      (_GA_COLLECT_URL +:+ "?api_secret=" +:+ py_str E api_secret
         +:+ "&" +:+ "measurement_id=" +:+ py_str E measurement_id)
      (* fixed_dimensions or dict() *)
      (match fixed_dimensions with Some d => d | None => ∅ end) in
  if __debug__ E then
    if negb (truthy (Py.opt_in self)) then
      raise (AssertionError "Tadau: Class initiated not opted in")
    else
      let* valid := _is_valid_instance self in
      if negb valid then raise (AssertionError (invalid_instance_message self))
      else ret self
  else ret self.

(** One entry of [for k, v in row.items()]. *)
Definition merge_param (event_reserved_keys request_keys : list string)
    (kv : string * value) : M state unit :=
  let (k, v) := kv in
  if _is_valid_param k v event_reserved_keys then
    fixed_dimensions_setitem k v
  else if negb (str_in k request_keys) then
    lift (logging WARNING (MsgInvalidParam k v))
  else ret tt.

(** The body of the [try] block of [send_events], for one [row]. *)
Definition send_row (row : dict) : M state unit :=
  if negb (truthy (dict_get row "name")) then
    lift (logging WARNING MsgEmptyName)     (* continue *)
  else
    let* client_id :=
      (if truthy (dict_get row "client_id") then ret (dict_get row "client_id")
       else let* u := lift (uuid_uuid4 E) in ret (VStr u)) in
    let* client_id_str := of_result (format E client_id) in
    let* t := gets self in
    let event_reserved_keys := _reserved_keys t ++ _request_keys t in
    (* params = self.fixed_dimensions: the same dict object *)
    for_each (merge_param event_reserved_keys (_request_keys t))
      (map_to_list row) >>>
    let* name := dict_getitem row "name" in
    let* name := of_result (_format_to_alphanumeric name) in
    let* params := gets (fun s => fixed_dimensions (self s)) in
    let user_id := dict_get row "user_id" in
    let* user_id_str :=
      (if truthy user_id then
         let* u := of_result (format E user_id) in ret (Some u)
       else ret None) in
    let payload :=
      Payload true client_id_str user_id_str [Event name params] in
    let* body := of_result (json_dumps E payload) in
    lift (post E (Request (_target_url t) body)) >>>
    lift (logging INFO (MsgSent payload)).

(** One iteration of the [for] loop: the [try] block and its handler. *)
Definition send_row_guarded (row : dict) : M state unit :=
  try_except (send_row row)
    (fun _ => lift (logging ERROR (MsgErrorSending row))).

Definition send_events (events : list dict) : M state unit :=
  let* t := gets self in
  if negb (truthy (opt_in t)) then ret tt
  else
    let* valid := lift (_is_valid_instance t) in
    if negb valid then ret tt
    else if bool_decide (events = []) then
      lift (logging DEBUG MsgEventsEmpty)
    else for_each send_row_guarded events.

Definition send_ads_event (event_action event_context ads_platform
    ads_platform_id ads_resource ads_resource_id : value) : M state unit :=
  send_events
    [list_to_map
       [("name", VStr "ads-event");
        ("event_is_impact_action", VBool true);
        ("event_action", event_action);
        ("event_context", event_context);
        ("ads_platform", ads_platform);
        ("ads_platform_id", ads_platform_id);
        ("ads_resource", ads_resource);
        ("ads_resource_id", ads_resource_id)]].

Definition send_custom_event (event_action event_is_impact_action
    event_context : value) : M state unit :=
  send_events
    [list_to_map
       [("name", VStr "custom-event");
        ("event_action", event_action);
        ("event_is_impact_action", event_is_impact_action);
        ("event_context", event_context)]].

Definition send_error_event (error_message error_code error_location
    error_location_id : value) : M state unit :=
  send_events
    [list_to_map
       [("name", VStr "error-event");
        ("error_message", error_message);
        ("error_code", error_code);
        ("error_location", error_location);
        ("error_location_id", error_location_id)]].

End WithEnv.
End Py.

(** ** [src/tadau/measurement_protocol.py] *)

Module Legacy.

Record Tadau := mkTadau {
  __api_url : string;
  __reserved_keys : list string;
  api_secret : value;
  measurement_id : value
}.

(** [a or b] *)
Definition py_or (a b : value) : value := if truthy a then a else b.

Definition __init__ (params : dict) : Tadau :=
  mkTadau "https://www.google-analytics.com/mp/collect"
    ["app_instance_id"; "client_id"; "uuid"; "user_id"; "timestamp_micros"]
    (py_or (dict_get params "api_secret") (VStr "shyN6ac9RuyxdgLQZRIvyg"))
    (py_or (dict_get params "measurement_id") (VStr "G-SWYK2BS415")).

(** [v != ''] *)
Definition ne_empty_str (v : value) : bool :=
  match v with
  | VStr s => negb (String.eqb s "")
  | _ => true
  end.

Definition _validate_param (key : string) (v : value)
    (reserved_keys : list string) : bool :=
  negb (str_in key reserved_keys) && negb (is_none v) && ne_empty_str v.

Definition _filter_alphanumeric_only (text : value) : result string :=
  match text with
  | VStr s => Ok (str_filter Py.in_class s)
  | _ => Raise TypeError
  end.

Section WithEnv.
Context (E : env).

(** The body of the [for] loop of [process], for one [row]. *)
Definition process_row (self : Tadau) (row : dict) : M world unit :=
  let client_id := dict_get row "client_id" in
  if negb (truthy client_id) then ret tt     (* continue *)
  else
    let user_id := dict_get row "user_id" in
    let* client_id_str := of_result (format E client_id) in
    let event_reserved_keys := __reserved_keys self ++ ["name"] in
    let params : dict :=
      filter (fun kv => _validate_param kv.1 kv.2 event_reserved_keys = true)
        row in
    let* name := dict_getitem row "name" in
    let* name := of_result (_filter_alphanumeric_only name) in
    let* user_id_str :=
      (if truthy user_id then
         let* u := of_result (format E user_id) in ret (Some u)
       else ret None) in
    let payload :=
      Payload true client_id_str user_id_str [Event name params] in
    let* api_secret_str := of_result (format E (api_secret self)) in
    let* measurement_id_str := of_result (format E (measurement_id self)) in
    let* body := of_result (json_dumps E payload) in
    post E
      (Request
         (__api_url self +:+ "?api_secret=" +:+ api_secret_str
            +:+ "&measurement_id=" +:+ measurement_id_str)
         body).

Definition process (self : Tadau) (events : list dict) : M world unit :=
  try_except (for_each (process_row self) events) (fun _ => ret tt).

End WithEnv.
End Legacy.


(** ** Running a computation *)

Definition outcome {S A} (c : M S A) (s : S) : result A := fst (c s).
Definition final {S A} (c : M S A) (s : S) : S := snd (c s).

(** ** Descriptions used in the statements *)

(** The keys that [send_events] never forwards as parameters. *)
Definition event_reserved_keys (t : Py.Tadau) : list string :=
  Py._reserved_keys t ++ Py._request_keys t.

(** The fields of [row] that pass [_is_valid_param]. *)
Definition valid_fields (keys : list string) (row : dict) : dict :=
  filter (fun kv => Py._is_valid_param kv.1 kv.2 keys = true) row.

(** [fd] overlaid with the valid fields of [row]: on a common key the
    field of the row wins. *)
Definition overlay (keys : list string) (row fd : dict) : dict :=
  valid_fields keys row ∪ fd.

(** The warnings logged while the fields of a row are merged. *)
Definition param_warnings (keys request_keys : list string)
    (l : list (string * value)) : list (level * message) :=
  flat_map
    (fun kv =>
       if Py._is_valid_param kv.1 kv.2 keys then []
       else if negb (str_in kv.1 request_keys) then
         [(WARNING, MsgInvalidParam kv.1 kv.2)]
       else [])
    l.

(** The reporter passes the two checks at the head of [send_events]:
    it is opted in and has both credentials. *)
Definition enabled (t : Py.Tadau) : bool :=
  truthy (Py.opt_in t) && truthy (Py.api_secret t)
  && truthy (Py.measurement_id t).

(** The spec's words for the sanitised name: the characters of the
    name that belong to this alphabet, in their order. *)
Definition name_alphabet : string :=
  "abcdefghijklmnopqrstuvwxyzABCDEFGHIJKLMNOPQRSTUVWXYZ0123456789-".

Fixpoint str_mem (c : ascii) (s : string) : bool :=
  match s with
  | EmptyString => false
  | String c' s' => Ascii.eqb c c' || str_mem c s'
  end.

Definition in_alphabet (c : ascii) : bool := str_mem c name_alphabet.

Definition keep_alphabet (s : string) : string := str_filter in_alphabet s.

(** A record whose [name] is a non-empty string. *)
Definition named (row : dict) : bool :=
  match row !! "name" with
  | Some (VStr n) => negb (String.eqb n "")
  | _ => false
  end.

(** ** Sample data, from the tests of the repository *)

(** The transport fails on the POSTs whose index is in [failing]; the
    [n]-th UUID is ["uuid-n"]. *)
Definition sample_env (failing : list nat) (debug : bool) : env :=
  Env (fun n => "uuid-" +:+ pretty n)
      (fun n _ => if bool_decide (n ∈ failing) then Some RequestException
                  else None)
      (fun _ => "float")
      (fun _ => FileNotFoundError)
      debug
      4300.

Definition empty_world : world := World [] [] 0.

Definition tadau_1232 (fixed_dimensions : dict) : Py.Tadau :=
  Py.mkTadau Py._GA_COLLECT_URL Py._GA_RESERVERD_KEYS Py._GA_REQUEST_KEYS
    (VStr "1232") (VStr "G-1223214") (VBool true)
    "https://www.google-analytics.com/mp/collect?api_secret=1232&measurement_id=G-1223214"
    fixed_dimensions.

Definition row_full : dict :=
  list_to_map [("client_id", VStr "123"); ("name", VStr "event name 1");
               ("value", VStr "42"); ("important_event", VStr "False");
               ("user_id", VStr "11")].

Definition row_no_client_id : dict :=
  list_to_map [("name", VStr "event_name"); ("successful", VStr "42");
               ("important_event", VStr "False")].

Definition row_no_name : dict :=
  list_to_map [("client_id", VStr "4321"); ("value", VStr "42")].

(** One step of the merge of a row into a dict, as a pure function. *)
Definition merge_step (keys : list string) (fd : dict)
    (kv : string * value) : dict :=
  if Py._is_valid_param kv.1 kv.2 keys then <[kv.1 := kv.2]> fd else fd.

(** State updates of the world inside a method call. *)
Definition add_log (e : level * message) (s : Py.state) : Py.state :=
  Py.State (Py.self s)
    (World (sent (Py.io s)) (log (Py.io s) ++ [e]) (uuid_count (Py.io s))).

Definition add_sent (r : request) (s : Py.state) : Py.state :=
  Py.State (Py.self s)
    (World (sent (Py.io s) ++ [r]) (log (Py.io s)) (uuid_count (Py.io s))).

(** The state in which the request of a row is issued: the valid fields
    of the row are merged in the dict of the reporter, the warnings are
    logged, a UUID is drawn when the row has no usable [client_id]. *)
Definition merged_state (row : dict) (s : Py.state) : Py.state :=
  let t := Py.self s in
  Py.State
    (Py.with_fixed_dimensions t
       (overlay (event_reserved_keys t) row (Py.fixed_dimensions t)))
    (World (sent (Py.io s))
       (log (Py.io s)
          ++ param_warnings (event_reserved_keys t) (Py._request_keys t)
               (map_to_list row))
       (if truthy (dict_get row "client_id") then uuid_count (Py.io s)
        else S (uuid_count (Py.io s)))).

(** The request issued for a row whose name is the string [name], when
    the loop reaches it in state [s]. *)
Definition request_of (E : env) (row : dict) (name : string) (s : Py.state)
  : request :=
  let t := Py.self s in
  Request (Py._target_url t)
    (Payload true
       (if truthy (dict_get row "client_id")
        then py_str E (dict_get row "client_id")
        else uuid4 E (uuid_count (Py.io s)))
       (if truthy (dict_get row "user_id")
        then Some (py_str E (dict_get row "user_id"))
        else None)
       [Event (str_filter Py.in_class name)
          (overlay (event_reserved_keys t) row (Py.fixed_dimensions t))]).

(** The row is merged in the dict of the reporter: it is not skipped for
    its name and its [client_id] converts to [str]. *)
Definition merges (E : env) (row : dict) : bool :=
  truthy (dict_get row "name") && printable E (dict_get row "client_id").

(** The payload of the row can be built and serialised in state [s]:
    its [user_id] converts to [str], and so does every parameter. *)
Definition sendable (E : env) (row : dict) (s : Py.state) : bool :=
  printable E (dict_get row "user_id")
  && serialisable E
       (overlay (event_reserved_keys (Py.self s)) row
          (Py.fixed_dimensions (Py.self s))).

(** The state after one iteration of the loop of [send_events]. *)
Definition after_row (E : env) (row : dict) (s : Py.state) : Py.state :=
  if negb (truthy (dict_get row "name")) then add_log (WARNING, MsgEmptyName) s
  else if negb (printable E (dict_get row "client_id")) then
    add_log (ERROR, MsgErrorSending row) s
  else
    match dict_get row "name" with
    | VStr n =>
        if sendable E row s then
          let req := request_of E row n s in
          let s' := add_sent req (merged_state row s) in
          match requests_post E (length (sent (Py.io s))) req with
          | None => add_log (INFO, MsgSent (data req)) s'
          | Some _ => add_log (ERROR, MsgErrorSending row) s'
          end
        else add_log (ERROR, MsgErrorSending row) (merged_state row s)
    | _ => add_log (ERROR, MsgErrorSending row) (merged_state row s)
    end.

(** The state after the loop of [send_events] over a batch. *)
Definition after_rows (E : env) (evs : list dict) (s : Py.state) : Py.state :=
  foldl (fun s row => after_row E row s) s evs.

(** The requests issued between two states of the same call. *)
Definition new_requests (s s' : Py.state) : list request :=
  drop (length (sent (Py.io s))) (sent (Py.io s')).

(** The dict of the reporter after the loop of [send_events] over a
    batch: every row that is merged is laid over it. *)
Definition merged_dims (E : env) (keys : list string) (evs : list dict)
    (fd : dict) : dict :=
  foldl (fun fd row => if merges E row then overlay keys row fd else fd)
    fd evs.

(** The state in which the loop of [send_events] reaches the record that
    follows the records [pre]. *)
Definition reached (E : env) (pre : list dict) (s : Py.state) : Py.state :=
  final (for_each (Py.send_row_guarded E) pre) s.

(** Every event of the request carries the parameter [k] with value [v]. *)
Definition has_param (k : string) (v : value) (r : request) : Prop :=
  Forall (fun ev => ev_params ev !! k = Some v) (events (data r)).

(** The row is merged by [send_events] and carries a valid field [k]. *)
Definition sets_param (keys : list string) (k : string) (row : dict) : bool :=
  truthy (dict_get row "name")
  && match row !! k with
     | Some v => Py._is_valid_param k v keys
     | None => false
     end.

(** The row leaves the parameter [k] at the value [v]: it does not set
    it, or sets it to [v]. *)
Definition keeps_param (keys : list string) (k : string) (v : value)
    (row : dict) : Prop :=
  sets_param keys k row = false ∨ row !! k = Some v.

Definition sample_state (fixed_dimensions : dict) : Py.state :=
  Py.State (tadau_1232 fixed_dimensions) empty_world.

(** An environment whose YAML loader finds the configuration [c]. *)
Definition config_env (c : config) (debug : bool) : env :=
  Env (fun n => "uuid-" +:+ pretty n) (fun _ _ => None) (fun _ => "float")
      (fun _ => Loaded (Some c)) debug 4300.


(** The request that [process] issues for a row whose name is the
    string [name]. *)
Definition legacy_request_of (E : env) (t : Legacy.Tadau) (row : dict)
    (name : string) : request :=
  Request
    (Legacy.__api_url t +:+ "?api_secret=" +:+ py_str E (Legacy.api_secret t)
       +:+ "&measurement_id=" +:+ py_str E (Legacy.measurement_id t))
    (Payload true (py_str E (dict_get row "client_id"))
       (if truthy (dict_get row "user_id")
        then Some (py_str E (dict_get row "user_id"))
        else None)
       [Event (str_filter Py.in_class name)
          (filter
             (fun kv =>
                Legacy._validate_param kv.1 kv.2
                  (Legacy.__reserved_keys t ++ ["name"]) = true)
             row)]).

(** The world with the requests [xs] appended to the trace. *)
Definition world_sent (xs : list request) (w : world) : world :=
  World (sent w ++ xs) (log w) (uuid_count w).

(** Every event of the request has parameters that satisfy [P]. *)
Definition all_params (P : dict -> Prop) (r : request) : Prop :=
  Forall (fun ev => P (ev_params ev)) (events (data r)).

(** The key lists of the reporter are those of the module, as
    [__init__] sets them. *)
Definition standard_keys (t : Py.Tadau) : Prop :=
  Py._reserved_keys t = Py._GA_RESERVERD_KEYS
  ∧ Py._request_keys t = Py._GA_REQUEST_KEYS.

(** The log records added between two states of the same call. *)
Definition new_log (s s' : Py.state) : list (level * message) :=
  drop (length (log (Py.io s))) (log (Py.io s')).

(** The record of the log that closes the processing of one row. *)
Definition row_record (e : level * message) : bool :=
  match e.2 with
  | MsgEmptyName | MsgSent _ | MsgErrorSending _ => true
  | _ => false
  end.

(** The row is not skipped for its name and has no usable [client_id]:
    [send_events] draws a UUID for it. *)
Definition draws_uuid (row : dict) : bool :=
  truthy (dict_get row "name") && negb (truthy (dict_get row "client_id")).

(** The row has a usable [client_id]. *)
Definition has_client_id (row : dict) : bool :=
  truthy (dict_get row "client_id").

(** The string consists of characters that [strip] removes. *)
Fixpoint all_space (s : string) : bool :=
  match s with
  | EmptyString => true
  | String c s' => char_isspace c && all_space s'
  end.

(** The name of a row, when it is a string. *)
Definition row_name (row : dict) : string :=
  match row !! "name" with
  | Some (VStr n) => n
  | _ => ""
  end.

(** The names of the events of a request. *)
Definition request_names (r : request) : list string :=
  map ev_name (events (data r)).

(** The row is dispatched from state [s]: its name is a non-empty
    string, its identifiers convert to [str] and its payload can be
    serialised. *)
Definition dispatched (E : env) (row : dict) (s : Py.state) : bool :=
  named row && printable E (dict_get row "client_id") && sendable E row s.

(** A record with integer values, among them a zero. *)
Definition row_numbers : dict :=
  list_to_map [("name", VStr "event_name"); ("client_id", VInt 123);
               ("user_id", VInt 11); ("value", VInt 42); ("zero", VInt 0)].

(** The payload and the URL of [process] can be built and serialised
    for the row: the identifiers of the row, the credentials of the
    reporter and the forwarded fields convert to [str]. *)
Definition legacy_sendable (E : env) (t : Legacy.Tadau) (row : dict) : bool :=
  printable E (dict_get row "client_id")
  && printable E (dict_get row "user_id")
  && printable E (Legacy.api_secret t)
  && printable E (Legacy.measurement_id t)
  && serialisable E
       (filter
          (fun kv =>
             Legacy._validate_param kv.1 kv.2
               (Legacy.__reserved_keys t ++ ["name"]) = true)
          row).

(** A record with a field for each falsy value. *)
Definition row_falsy : dict :=
  list_to_map [("name", VStr "event_name"); ("client_id", VStr "123");
               ("none", VNone); ("empty", VStr ""); ("zero", VInt 0);
               ("false", VBool false); ("value", VInt 42)].

(** A dict of fixed dimensions whose values are all truthy. *)
Definition dims_truthy : dict :=
  list_to_map [("deploy_id", VStr "X"); ("count", VInt 3)].

(** The string has only ASCII characters; on such a string [str_lower]
    and [str_strip] are [str.lower] and [str.strip]. *)
Fixpoint is_ascii (s : string) : bool :=
  match s with
  | EmptyString => true
  | String c s' => (Ascii.N_of_ascii c <? 128)%N && is_ascii s'
  end.

(** The [opt_in] of the configuration, when it is a string, is ASCII. *)
Definition ascii_opt_in (c : config) : bool :=
  match cfg_opt_in c with
  | Some (VStr v) => is_ascii v
  | _ => true
  end.

(** * Properties *)

(** ** The merge of a row into the fixed dimensions *)

Lemma lookup_valid_fields keys (row : dict) k :
  valid_fields keys row !! k =
  match row !! k with
  | Some v => if Py._is_valid_param k v keys then Some v else None
  | None => None
  end.
Proof.
  unfold valid_fields. rewrite map_lookup_filter.
  destruct (row !! k) as [v|]; simpl; [|done].
  destruct (Py._is_valid_param k v keys) eqn:Hv.
  - by rewrite option_guard_True.
  - rewrite option_guard_False; [done|]. simpl. congruence.
Qed.

Lemma lookup_overlay keys (row fd : dict) k :
  overlay keys row fd !! k =
  match row !! k with
  | Some v => if Py._is_valid_param k v keys then Some v else fd !! k
  | None => fd !! k
  end.
Proof.
  unfold overlay. rewrite lookup_union, lookup_valid_fields.
  destruct (row !! k) as [v|]; [|by rewrite (left_id_L None _)].
  destruct (Py._is_valid_param k v keys); [|by rewrite (left_id_L None _)].
  by destruct (fd !! k).
Qed.

Lemma foldl_merge_step keys (l : list (string * value)) (fd : dict) :
  NoDup (l.*1) →
  foldl (merge_step keys) fd l = overlay keys (list_to_map l) fd.
Proof.
  revert fd. induction l as [|[k0 v0] l IH]; intros fd Hnd.
  - simpl. apply map_eq. intros k.
    by rewrite lookup_overlay, lookup_empty.
  - apply NoDup_cons in Hnd as [Hk0 Hnd]. simpl.
    rewrite (IH _ Hnd). apply map_eq. intros k.
    rewrite !lookup_overlay.
    apply not_elem_of_list_to_map_1 in Hk0.
    unfold merge_step. simpl.
    destruct (decide (k = k0)) as [->|Hne].
    + rewrite (Hk0 : (list_to_map l : dict) !! k0 = None), lookup_insert_eq.
      destruct (Py._is_valid_param k0 v0 keys); [by rewrite lookup_insert_eq|done].
    + rewrite lookup_insert_ne by done.
      destruct ((list_to_map l : dict) !! k) as [v|] eqn:Hl.
      * destruct (Py._is_valid_param k v keys); [done|].
        destruct (Py._is_valid_param k0 v0 keys); [by rewrite lookup_insert_ne|done].
      * destruct (Py._is_valid_param k0 v0 keys); [by rewrite lookup_insert_ne|done].
Qed.

Lemma foldl_merge_step_row keys (row fd : dict) :
  foldl (merge_step keys) fd (map_to_list row) = overlay keys row fd.
Proof.
  rewrite foldl_merge_step by apply NoDup_fst_map_to_list.
  by rewrite list_to_map_to_list.
Qed.

Lemma with_fixed_dimensions_twice t d1 d2 :
  Py.with_fixed_dimensions (Py.with_fixed_dimensions t d1) d2
  = Py.with_fixed_dimensions t d2.
Proof. done. Qed.

Lemma with_fixed_dimensions_same t :
  Py.with_fixed_dimensions t (Py.fixed_dimensions t) = t.
Proof. by destruct t. Qed.

(** The loop over [row.items()] always completes: it updates the dict of
    the reporter and logs the warnings, nothing else. *)
Lemma merge_loop keys rkeys (l : list (string * value)) (s : Py.state) :
  for_each (Py.merge_param keys rkeys) l s =
  (Ok tt,
   Py.State
     (Py.with_fixed_dimensions (Py.self s)
        (foldl (merge_step keys) (Py.fixed_dimensions (Py.self s)) l))
     (World (sent (Py.io s))
        (log (Py.io s) ++ param_warnings keys rkeys l)
        (uuid_count (Py.io s)))).
Proof.
  revert s. induction l as [|[k v] l IH]; intros [t [snt lg n]].
  - simpl. unfold ret. by rewrite with_fixed_dimensions_same, app_nil_r.
  - simpl. unfold bind at 1. unfold Py.merge_param at 1, merge_step at 2.
    simpl. destruct (Py._is_valid_param k v keys).
    + unfold Py.fixed_dimensions_setitem, modify. simpl. rewrite IH. simpl.
      by rewrite with_fixed_dimensions_twice.
    + destruct (negb (str_in k rkeys)).
      * unfold Py.lift, logging, modify. simpl. rewrite IH. simpl.
        by rewrite <- app_assoc.
      * unfold ret. rewrite IH. done.
Qed.

(** ** One iteration of the loop of [send_events] *)

Lemma dict_get_str (row : dict) k n :
  dict_get row k = VStr n → row !! k = Some (VStr n).
Proof. unfold dict_get. destruct (row !! k); [congruence|discriminate]. Qed.

Lemma dict_get_lookup (row : dict) k v :
  row !! k = Some v → dict_get row k = v.
Proof. unfold dict_get. by intros ->. Qed.

Lemma dict_get_truthy (row : dict) k :
  truthy (dict_get row k) = true → row !! k = Some (dict_get row k).
Proof. unfold dict_get. destruct (row !! k); [done|discriminate]. Qed.

(** A falsy value converts to [str]: the integer among them is [0]. *)
Lemma printable_falsy E v : truthy v = false → printable E v = true.
Proof.
  destruct v as [| |z| |]; try done. simpl.
  intros Hz%negb_false_iff%Z.eqb_eq. subst z.
  by destruct (int_max_str_digits E).
Qed.

Lemma format_printable E v : printable E v = true → format E v = Ok (py_str E v).
Proof. unfold format. by intros ->. Qed.

(** A row without a usable name: a warning, nothing else. *)
Lemma send_row_skip E row s :
  truthy (dict_get row "name") = false →
  Py.send_row E row s = (Ok tt, add_log (WARNING, MsgEmptyName) s).
Proof. intros H. unfold Py.send_row. by rewrite H. Qed.

Lemma bind_run {S A B} (c : M S A) (k : A → M S B) s :
  bind c k s =
  match c s with
  | (Ok a, s') => k a s'
  | (Raise e, s') => (Raise e, s')
  end.
Proof. done. Qed.

(** A row whose [client_id] does not convert to [str]: the f-string
    raises before anything else is done. *)
Lemma send_row_unprintable E row s :
  truthy (dict_get row "name") = true →
  printable E (dict_get row "client_id") = false →
  Py.send_row E row s = (Raise ValueError, s).
Proof.
  intros Ht Hp. unfold Py.send_row. rewrite Ht. simpl.
  assert (truthy (dict_get row "client_id") = true) as ->.
  { destruct (truthy (dict_get row "client_id")) eqn:Hc; [done|].
    apply (printable_falsy E) in Hc. congruence. }
  rewrite bind_run. unfold ret at 1. cbv beta iota.
  rewrite bind_run. unfold of_result, format. by rewrite Hp.
Qed.

(** The part of [send_row] before the name is sanitised. *)
Lemma send_row_merge E row s :
  truthy (dict_get row "name") = true →
  printable E (dict_get row "client_id") = true →
  Py.send_row E row s =
  (let* name := of_result (Py._format_to_alphanumeric (dict_get row "name")) in
   let* user_id_str :=
     (if truthy (dict_get row "user_id") then
        let* u := of_result (format E (dict_get row "user_id")) in
        ret (Some u)
      else ret None) in
   fun s' =>
     let payload :=
       Payload true
         (if truthy (dict_get row "client_id")
          then py_str E (dict_get row "client_id")
          else uuid4 E (uuid_count (Py.io s)))
         user_id_str
         [Event name (Py.fixed_dimensions (Py.self s'))] in
     (let* body := of_result (json_dumps E payload) in
      Py.lift (post E (Request (Py._target_url (Py.self s)) body)) >>>
      Py.lift (logging INFO (MsgSent payload))) s')
  (merged_state row s).
Proof.
  intros H Hp. unfold Py.send_row. rewrite H. simpl.
  pose proof (dict_get_truthy _ _ H) as Hn.
  destruct (truthy (dict_get row "client_id")) eqn:Hc;
    [ rewrite bind_run; unfold ret at 1; cbv beta iota;
      rewrite bind_run; unfold of_result at 1;
      rewrite (format_printable _ _ Hp)
    | do 2 rewrite bind_run; unfold Py.lift at 1, uuid_uuid4; unfold ret at 1;
      cbv beta iota; rewrite bind_run; unfold of_result at 1;
      unfold format at 1; simpl printable ];
    cbv beta iota;
    rewrite bind_run; unfold gets at 1; cbv beta iota;
    rewrite bind_run, merge_loop; cbv beta iota;
    rewrite foldl_merge_step_row;
    rewrite bind_run; unfold dict_getitem; rewrite Hn; unfold ret at 1;
    cbv beta iota; unfold merged_state; rewrite Hc, !bind_run;
    unfold of_result at 1 3;
    (destruct (Py._format_to_alphanumeric _); [|done]);
    rewrite bind_run; unfold gets at 1; cbv beta iota;
    rewrite !bind_run;
    (destruct (truthy (dict_get row "user_id"));
     [rewrite !bind_run; unfold of_result;
      destruct (format E (dict_get row "user_id"))|]);
    reflexivity.
Qed.

(** A row whose name is a string and whose payload can be built and
    serialised: the request is posted from the merged state; the
    outcome is that of the transport. *)
Lemma send_row_named E row n s :
  dict_get row "name" = VStr n → n ≠ "" →
  printable E (dict_get row "client_id") = true →
  sendable E row s = true →
  Py.send_row E row s =
  let req := request_of E row n s in
  let s' := add_sent req (merged_state row s) in
  match requests_post E (length (sent (Py.io s))) req with
  | None => (Ok tt, add_log (INFO, MsgSent (data req)) s')
  | Some e => (Raise e, s')
  end.
Proof.
  intros Hn Hne Hp [Hu Hs]%andb_true_iff.
  assert (truthy (dict_get row "name") = true) as Ht.
  { rewrite Hn. simpl. destruct n; [done|done]. }
  rewrite (send_row_merge _ _ _ Ht Hp). rewrite Hn. simpl.
  rewrite bind_run. unfold of_result at 1. cbv beta iota.
  rewrite bind_run.
  assert ((if truthy (dict_get row "user_id")
           then let* u := of_result (format E (dict_get row "user_id"))
                in ret (Some u)
           else ret None) (merged_state row s)
          = (Ok (if truthy (dict_get row "user_id")
                 then Some (py_str E (dict_get row "user_id")) else None),
             merged_state row s)) as ->.
  { destruct (truthy (dict_get row "user_id")); [|done].
    rewrite bind_run. unfold of_result. by rewrite (format_printable _ _ Hu). }
  cbv beta iota zeta. rewrite bind_run. unfold of_result, json_dumps.
  simpl. rewrite Hs. simpl.
  unfold bind, Py.lift, post, logging, modify. simpl.
  unfold request_of. simpl.
  destruct (requests_post E _ _); done.
Qed.

(** A row whose name is a string but whose [user_id] or parameters do
    not convert to [str]: the f-string or [json.dumps] raises after the
    fields have been merged, and nothing is posted. *)
Lemma send_row_unsendable E row n s :
  dict_get row "name" = VStr n → n ≠ "" →
  printable E (dict_get row "client_id") = true →
  sendable E row s = false →
  Py.send_row E row s = (Raise ValueError, merged_state row s).
Proof.
  intros Hn Hne Hp Hs.
  assert (truthy (dict_get row "name") = true) as Ht.
  { rewrite Hn. simpl. destruct n; [done|done]. }
  rewrite (send_row_merge _ _ _ Ht Hp). rewrite Hn. simpl.
  rewrite bind_run. unfold of_result at 1. cbv beta iota.
  rewrite bind_run. unfold sendable in Hs.
  destruct (printable E (dict_get row "user_id")) eqn:Hu.
  - assert ((if truthy (dict_get row "user_id")
             then let* u := of_result (format E (dict_get row "user_id"))
                  in ret (Some u)
             else ret None) (merged_state row s)
            = (Ok (if truthy (dict_get row "user_id")
                   then Some (py_str E (dict_get row "user_id")) else None),
               merged_state row s)) as ->.
    { destruct (truthy (dict_get row "user_id")); [|done].
      rewrite bind_run. unfold of_result.
      by rewrite (format_printable _ _ Hu). }
    cbv beta iota zeta. rewrite bind_run. unfold of_result, json_dumps.
    simpl in *. by rewrite Hs.
  - assert (truthy (dict_get row "user_id") = true) as ->.
    { destruct (truthy (dict_get row "user_id")) eqn:Hc; [done|].
      apply (printable_falsy E) in Hc. congruence. }
    rewrite bind_run. unfold of_result, format. by rewrite Hu.
Qed.

(** A row whose name is truthy but not a string: [re.sub] raises after
    the fields have been merged. *)
Lemma send_row_not_str E row s :
  truthy (dict_get row "name") = true →
  printable E (dict_get row "client_id") = true →
  (∀ n, dict_get row "name" ≠ VStr n) →
  Py.send_row E row s = (Raise TypeError, merged_state row s).
Proof.
  intros Ht Hp Hn. rewrite (send_row_merge _ _ _ Ht Hp).
  rewrite bind_run. unfold of_result at 1.
  destruct (dict_get row "name"); try done. by destruct (Hn s0).
Qed.

(** One iteration never raises, and its effect is [after_row]. *)
Lemma send_row_guarded_after E row s :
  Py.send_row_guarded E row s = (Ok tt, after_row E row s).
Proof.
  unfold Py.send_row_guarded, try_except, after_row.
  destruct (truthy (dict_get row "name")) eqn:Ht; simpl;
    [|by rewrite send_row_skip by done].
  destruct (printable E (dict_get row "client_id")) eqn:Hp; simpl;
    [|by rewrite send_row_unprintable by done].
  destruct (dict_get row "name") as [| | | |n] eqn:Hn;
    try (rewrite send_row_not_str; [done|by rewrite Hn|done|by rewrite Hn]).
  assert (n ≠ "") as Hne by by intros ->.
  destruct (sendable E row s) eqn:Hs.
  - rewrite (send_row_named _ _ n) by done.
    simpl. destruct (requests_post E _ _); done.
  - by rewrite (send_row_unsendable _ _ n) by done.
Qed.

(** ** The loop of [send_events] *)

Lemma for_each_guarded E evs s :
  for_each (Py.send_row_guarded E) evs s = (Ok tt, after_rows E evs s).
Proof.
  revert s. induction evs as [|row evs IH]; intros s; [done|].
  simpl. rewrite bind_run, send_row_guarded_after. apply IH.
Qed.

Lemma after_rows_app E pre post s :
  after_rows E (pre ++ post) s = after_rows E post (after_rows E pre s).
Proof. apply foldl_app. Qed.

Lemma after_rows_cons E row evs s :
  after_rows E (row :: evs) s = after_rows E evs (after_row E row s).
Proof. done. Qed.

Lemma enabled_true t :
  enabled t = true ↔
  truthy (Py.opt_in t) = true ∧ truthy (Py.api_secret t) = true
  ∧ truthy (Py.measurement_id t) = true.
Proof. unfold enabled. rewrite !andb_true_iff. tauto. Qed.

(** [send_events] for an enabled reporter. *)
Lemma send_events_enabled E evs s :
  enabled (Py.self s) = true →
  Py.send_events E evs s =
  (Ok tt,
   if bool_decide (evs = []) then add_log (DEBUG, MsgEventsEmpty) s
   else after_rows E evs s).
Proof.
  intros (Ho & Ha & Hm)%enabled_true. unfold Py.send_events.
  rewrite bind_run. unfold gets at 1. cbv beta iota. rewrite Ho. simpl.
  rewrite bind_run. unfold Py.lift at 1, Py._is_valid_instance.
  rewrite Ha, Hm. simpl. destruct s as [t w]. simpl.
  case_bool_decide; [done|]. apply for_each_guarded.
Qed.

(** [send_events] for a reporter that is not enabled. *)
Lemma send_events_disabled E evs s :
  enabled (Py.self s) = false →
  Py.send_events E evs s =
  (Ok tt,
   if truthy (Py.opt_in (Py.self s)) then
     add_log
       (ERROR,
        MsgInvalidInstance (Py.api_secret (Py.self s))
          (Py.measurement_id (Py.self s)))
       s
   else s).
Proof.
  intros Hg. unfold Py.send_events.
  rewrite bind_run. unfold gets at 1. cbv beta iota.
  destruct (truthy (Py.opt_in (Py.self s))) eqn:Ho; simpl; [|done].
  rewrite bind_run. unfold Py.lift at 1, Py._is_valid_instance.
  unfold enabled in Hg. rewrite Ho in Hg. simpl in Hg.
  apply andb_false_iff in Hg.
  assert (negb (truthy (Py.api_secret (Py.self s)))
          || negb (truthy (Py.measurement_id (Py.self s))) = true) as ->.
  { destruct Hg as [-> | ->]; [done|]. by rewrite orb_true_r. }
  by destruct s as [t [snt lg n]].
Qed.

(** ** What one iteration changes *)

Lemma named_spec (row : dict) :
  named row = true ↔ ∃ n, row !! "name" = Some (VStr n) ∧ n ≠ "".
Proof.
  unfold named. split.
  - destruct (row !! "name") as [[| | | |n]|]; try done.
    intros Hn. exists n. split; [done|]. intros ->. done.
  - intros (n & -> & Hn). by destruct n.
Qed.

Lemma named_truthy (row : dict) :
  named row = true → truthy (dict_get row "name") = true.
Proof.
  intros (n & Hn & Hne)%named_spec. rewrite (dict_get_lookup _ _ _ Hn).
  by destruct n.
Qed.

Lemma named_false (row : dict) :
  named row = false →
  truthy (dict_get row "name") = false ∨ ∀ n, dict_get row "name" ≠ VStr n.
Proof.
  unfold named, dict_get.
  destruct (row !! "name") as [[| | | |n]|]; try (by right); by left.
Qed.

(** The reporter after one iteration: only its dict may have changed. *)
Lemma after_row_self E row s :
  Py.self (after_row E row s) =
  Py.with_fixed_dimensions (Py.self s)
    (if merges E row
     then overlay (event_reserved_keys (Py.self s)) row
            (Py.fixed_dimensions (Py.self s))
     else Py.fixed_dimensions (Py.self s)).
Proof.
  unfold after_row, merges.
  destruct (truthy (dict_get row "name")); simpl;
    [|by rewrite with_fixed_dimensions_same].
  destruct (printable E (dict_get row "client_id")); simpl;
    [|by rewrite with_fixed_dimensions_same].
  destruct (dict_get row "name"); try done.
  destruct (sendable E row s); [|done].
  by destruct (requests_post E _ _).
Qed.

(** The requests after one iteration: one more exactly when the row is
    dispatched. *)
Lemma after_row_sent E row s :
  sent (Py.io (after_row E row s)) =
  sent (Py.io s) ++
  (if dispatched E row s then [request_of E row (row_name row) s] else []).
Proof.
  unfold dispatched. destruct (named row) eqn:Hnamed.
  - pose proof (named_truthy _ Hnamed) as Ht.
    apply named_spec in Hnamed as (n & Hn & Hne).
    unfold after_row, row_name. rewrite Ht, Hn. simpl.
    destruct (printable E (dict_get row "client_id")); simpl;
      [|by rewrite app_nil_r].
    rewrite (dict_get_lookup _ _ _ Hn).
    destruct (sendable E row s); simpl; [|by rewrite app_nil_r].
    by destruct (requests_post E _ _).
  - simpl. rewrite app_nil_r. unfold after_row.
    destruct (named_false _ Hnamed) as [Ht|Hn]; [by rewrite Ht|].
    destruct (truthy (dict_get row "name")); simpl; [|done].
    destruct (printable E (dict_get row "client_id")); simpl; [|done].
    destruct (dict_get row "name") as [| | | |n]; try done.
    by destruct (Hn n).
Qed.

Lemma after_row_sent_named E row n s :
  row !! "name" = Some (VStr n) → n ≠ "" →
  printable E (dict_get row "client_id") = true →
  sendable E row s = true →
  sent (Py.io (after_row E row s)) = sent (Py.io s) ++ [request_of E row n s].
Proof.
  intros Hn Hne Hp Hs. rewrite after_row_sent. unfold dispatched, row_name.
  rewrite Hp, Hs, Hn.
  assert (named row = true) as -> by (apply named_spec; eauto). done.
Qed.

Lemma after_row_sent_unnamed E row s :
  named row = false →
  sent (Py.io (after_row E row s)) = sent (Py.io s).
Proof.
  intros Hn. rewrite after_row_sent. unfold dispatched. rewrite Hn.
  by rewrite app_nil_r.
Qed.

(** Requests are only ever appended. *)
Lemma after_rows_sent_prefix E evs s :
  ∃ new, sent (Py.io (after_rows E evs s)) = sent (Py.io s) ++ new.
Proof.
  revert s. induction evs as [|row evs IH]; intros s.
  - exists []. by rewrite app_nil_r.
  - rewrite after_rows_cons. destruct (IH (after_row E row s)) as [new ->].
    rewrite after_row_sent. eexists. by rewrite <- app_assoc.
Qed.

(** ** Values that convert to [str] *)

Lemma serialisable_spec E (d : dict) :
  serialisable E d = true ↔ ∀ k v, d !! k = Some v → printable E v = true.
Proof. unfold serialisable. by rewrite bool_decide_eq_true. Qed.

Lemma serialisable_get E (d : dict) k :
  serialisable E d = true → printable E (dict_get d k) = true.
Proof.
  intros Hd. unfold dict_get. destruct (d !! k) as [v|] eqn:Hk; [|done].
  by apply (proj1 (serialisable_spec E d) Hd k).
Qed.

Lemma serialisable_overlay E keys (row fd : dict) :
  serialisable E row = true → serialisable E fd = true →
  serialisable E (overlay keys row fd) = true.
Proof.
  rewrite !serialisable_spec. intros Hrow Hfd k v. rewrite lookup_overlay.
  destruct (row !! k) as [v'|] eqn:Hk; [|apply Hfd].
  destruct (Py._is_valid_param k v' keys); [|apply Hfd].
  intros [= <-]. by apply (Hrow k).
Qed.

(** A row whose values convert to [str] is sent from a state whose dict
    has only such values. *)
Lemma serialisable_sendable E row s :
  serialisable E row = true →
  serialisable E (Py.fixed_dimensions (Py.self s)) = true →
  printable E (dict_get row "client_id") = true
  ∧ sendable E row s = true
  ∧ serialisable E (Py.fixed_dimensions (Py.self (after_row E row s))) = true.
Proof.
  intros Hrow Hfd. split; [by apply serialisable_get|]. split.
  - unfold sendable. rewrite serialisable_get by done.
    by rewrite serialisable_overlay.
  - rewrite after_row_self. simpl.
    destruct (merges E row); [by apply serialisable_overlay|done].
Qed.

(** In a batch whose values convert to [str], sent from a dict that has
    only such values, every row whose name is a non-empty string is
    dispatched. *)
Lemma after_rows_sent_length E evs s :
  serialisable E (Py.fixed_dimensions (Py.self s)) = true →
  Forall (fun row => serialisable E row = true) evs →
  length (sent (Py.io (after_rows E evs s))) =
  length (sent (Py.io s)) + length (filter (fun row => named row = true) evs).
Proof.
  revert s. induction evs as [|row evs IH]; intros s Hfd Hall; [simpl; lia|].
  apply Forall_cons in Hall as [Hrow Hall].
  destruct (serialisable_sendable E row s Hrow Hfd) as (Hp & Hs & Hfd').
  rewrite after_rows_cons, IH, filter_cons by done.
  destruct (named row) eqn:Hn.
  - apply named_spec in Hn as (n & Hn & Hne).
    rewrite (after_row_sent_named _ _ n) by done.
    rewrite decide_True by done. rewrite length_app. simpl. lia.
  - rewrite after_row_sent_unnamed by done.
    rewrite decide_False by done. lia.
Qed.

(** The request of a dispatched row sits in the trace at the position
    that was free when the loop reached the row. *)
Lemma after_rows_request E pre row post n s :
  row !! "name" = Some (VStr n) → n ≠ "" →
  printable E (dict_get row "client_id") = true →
  sendable E row (after_rows E pre s) = true →
  sent (Py.io (after_rows E (pre ++ row :: post) s))
    !! length (sent (Py.io (after_rows E pre s)))
  = Some (request_of E row n (after_rows E pre s)).
Proof.
  intros Hn Hne Hp Hs. rewrite after_rows_app, after_rows_cons.
  destruct (after_rows_sent_prefix E post
              (after_row E row (after_rows E pre s))) as [new ->].
  rewrite (after_row_sent_named _ _ n) by done.
  rewrite <- app_assoc. rewrite lookup_app_r by lia.
  by rewrite Nat.sub_diag.
Qed.

(** ** The reporter across a batch *)

Lemma event_reserved_keys_with t d :
  event_reserved_keys (Py.with_fixed_dimensions t d) = event_reserved_keys t.
Proof. done. Qed.

Lemma after_rows_self E evs s :
  Py.self (after_rows E evs s) =
  Py.with_fixed_dimensions (Py.self s)
    (merged_dims E (event_reserved_keys (Py.self s)) evs
       (Py.fixed_dimensions (Py.self s))).
Proof.
  revert s. induction evs as [|row evs IH]; intros s.
  - simpl. by rewrite with_fixed_dimensions_same.
  - rewrite after_rows_cons, IH, after_row_self.
    rewrite with_fixed_dimensions_twice, event_reserved_keys_with. done.
Qed.

Lemma after_rows_enabled E evs s :
  enabled (Py.self (after_rows E evs s)) = enabled (Py.self s).
Proof. by rewrite after_rows_self. Qed.

Lemma reached_after_rows E pre s : reached E pre s = after_rows E pre s.
Proof. unfold reached, final. by rewrite for_each_guarded. Qed.

Lemma final_send_events E evs s :
  enabled (Py.self s) = true → evs ≠ [] →
  final (Py.send_events E evs) s = after_rows E evs s.
Proof.
  intros Hg Hne. unfold final. rewrite send_events_enabled by done.
  by rewrite bool_decide_eq_false_2.
Qed.

(** Whatever the reporter and the batch, a call changes at most the dict of
    the reporter, and only by adding or replacing entries. *)
Lemma send_events_self E evs s :
  ∃ d, Py.self (final (Py.send_events E evs) s)
       = Py.with_fixed_dimensions (Py.self s) d
    ∧ dom (Py.fixed_dimensions (Py.self s)) ⊆ dom d.
Proof.
  assert (∀ keys l (fd : dict), dom fd ⊆ dom (merged_dims E keys l fd))
    as Hdom.
  { intros keys l. induction l as [|row l IH]; intros fd; [done|].
    simpl. etrans; [|apply IH].
    destruct (merges E row); [|done].
    unfold overlay. rewrite dom_union. set_solver. }
  unfold final. destruct (enabled (Py.self s)) eqn:Hg.
  - rewrite send_events_enabled by done. simpl. case_bool_decide.
    + exists (Py.fixed_dimensions (Py.self s)).
      by rewrite with_fixed_dimensions_same.
    + rewrite after_rows_self. eexists. split; [done|]. apply Hdom.
  - rewrite send_events_disabled by done. simpl.
    exists (Py.fixed_dimensions (Py.self s)).
    rewrite with_fixed_dimensions_same.
    by destruct (truthy (Py.opt_in (Py.self s))).
Qed.

(** ** The checks at the head of [send_events] *)

(** C2: [send_events] returns at once, without error and without any
    HTTP request, when the reporter is not opted in, when [api_secret]
    or [measurement_id] is empty, or when the batch is empty: the
    reporter, the requests and the UUID counter are unchanged, at most
    log records are added, and none at all for a reporter that is not
    opted in. *)
Theorem send_events_noop E (s : Py.state) (evs : list dict) :
  truthy (Py.opt_in (Py.self s)) = false
  ∨ truthy (Py.api_secret (Py.self s)) = false
  ∨ truthy (Py.measurement_id (Py.self s)) = false
  ∨ evs = [] →
  ∃ records,
    Py.send_events E evs s =
    (Ok tt,
     Py.State (Py.self s)
       (World (sent (Py.io s)) (log (Py.io s) ++ records)
          (uuid_count (Py.io s))))
    ∧ (truthy (Py.opt_in (Py.self s)) = false → records = []).
Proof.
  intros H. destruct (enabled (Py.self s)) eqn:Hg.
  - rewrite send_events_enabled by done.
    apply enabled_true in Hg as (Ho & Ha & Hm).
    destruct H as [H | [H | [H | ->] ] ]; try congruence.
    exists [(DEBUG, MsgEventsEmpty)]. split; [done|congruence].
  - rewrite send_events_disabled by done.
    destruct (truthy (Py.opt_in (Py.self s))) eqn:Ho.
    + eexists. split; [done|congruence].
    + exists []. rewrite app_nil_r. by destruct s as [t [snt lg n]].
Qed.

Lemma send_events_noop_witness :
  truthy (Py.opt_in (Py.self (Py.State
     (Py.mkTadau Py._GA_COLLECT_URL Py._GA_RESERVERD_KEYS Py._GA_REQUEST_KEYS
        (VStr "1232") (VStr "G-1223214") (VBool false) "" ∅) empty_world)))
    = false
  ∧ ∃ records,
    Py.send_events (sample_env [] true) [row_full]
      (Py.State
         (Py.mkTadau Py._GA_COLLECT_URL Py._GA_RESERVERD_KEYS
            Py._GA_REQUEST_KEYS
            (VStr "1232") (VStr "G-1223214") (VBool false) "" ∅)
         empty_world) =
    (Ok tt,
     Py.State
       (Py.mkTadau Py._GA_COLLECT_URL Py._GA_RESERVERD_KEYS
          Py._GA_REQUEST_KEYS
          (VStr "1232") (VStr "G-1223214") (VBool false) "" ∅)
       (World [] ([] ++ records) 0))
    ∧ (false = false → records = []).
Proof.
  split; [reflexivity|].
  apply (send_events_noop (sample_env [] true)
           (Py.State
              (Py.mkTadau Py._GA_COLLECT_URL Py._GA_RESERVERD_KEYS
                 Py._GA_REQUEST_KEYS
                 (VStr "1232") (VStr "G-1223214") (VBool false) "" ∅)
              empty_world)
           [row_full]).
  left. reflexivity.
Defined.

(** ** The dict of the reporter is shared with the parameters *)

(** C1, evaluated on the first record of the tests: after the call the
    dict [fixed_dimensions] of the reporter, empty at construction,
    holds the custom parameters of the record. *)
Lemma send_events_changes_fixed_dimensions :
  let E := sample_env [] true in
  let w := empty_world in
  ∃ t,
    Py.__init__ E (VStr "1232") (VStr "G-1223214") (VBool true) None None w
    = (Ok t, w)
    ∧ Py.fixed_dimensions t = ∅
    ∧ Py.fixed_dimensions
        (Py.self (final (Py.send_events E [row_full]) (Py.State t w)))
      = {[ "value" := VStr "42"; "important_event" := VStr "False" ]}.
Proof.
  eexists. split; [vm_compute; reflexivity|].
  split; [reflexivity|]. vm_compute. reflexivity.
Qed.

(** ** Parameters that stay in the dict of the reporter *)

Lemma new_requests_app s s' xs :
  sent (Py.io s') = sent (Py.io s) ++ xs → new_requests s s' = xs.
Proof. unfold new_requests. intros ->. apply drop_app_length. Qed.

Lemma new_requests_same s s' :
  sent (Py.io s') = sent (Py.io s) → new_requests s s' = [].
Proof. intros H. apply new_requests_app. by rewrite app_nil_r. Qed.

Lemma overlay_keeps keys k v (row fd : dict) :
  fd !! k = Some v →
  keeps_param keys k v row →
  truthy (dict_get row "name") = true →
  overlay keys row fd !! k = Some v.
Proof.
  intros Hfd Hk Ht. rewrite lookup_overlay.
  destruct Hk as [Hk | ->].
  - unfold sets_param in Hk. rewrite Ht in Hk. simpl in Hk.
    destruct (row !! k); [by rewrite Hk|done].
  - by destruct (Py._is_valid_param k v keys).
Qed.

Lemma after_row_keeps E k v row s :
  Py.fixed_dimensions (Py.self s) !! k = Some v →
  keeps_param (event_reserved_keys (Py.self s)) k v row →
  Py.fixed_dimensions (Py.self (after_row E row s)) !! k = Some v
  ∧ Forall (has_param k v) (new_requests s (after_row E row s)).
Proof.
  intros Hfd Hk. split.
  - rewrite after_row_self. simpl.
    destruct (merges E row) eqn:Hm; [|done].
    apply andb_true_iff in Hm as [Ht _]. by apply overlay_keeps.
  - destruct (dispatched E row s) eqn:Hd.
    + rewrite (new_requests_app _ _ [request_of E row (row_name row) s])
        by by rewrite after_row_sent, Hd.
      apply andb_true_iff in Hd as [[Hn%named_truthy _]%andb_true_iff _].
      repeat constructor. simpl. by apply overlay_keeps.
    + rewrite new_requests_same; [done|].
      by rewrite after_row_sent, Hd, app_nil_r.
Qed.

Lemma after_rows_keeps E k v evs s :
  Py.fixed_dimensions (Py.self s) !! k = Some v →
  Forall (keeps_param (event_reserved_keys (Py.self s)) k v) evs →
  Py.fixed_dimensions (Py.self (after_rows E evs s)) !! k = Some v
  ∧ Forall (has_param k v) (new_requests s (after_rows E evs s)).
Proof.
  revert s. induction evs as [|row evs IH]; intros s Hfd Hall.
  - simpl. split; [done|]. by rewrite new_requests_same.
  - apply Forall_cons in Hall as [Hrow Hall].
    destruct (after_row_keeps E k v row s Hfd Hrow) as [Hfd1 Hreq1].
    rewrite after_rows_cons.
    destruct (IH (after_row E row s)) as [Hfd2 Hreq2]; [done| |].
    { by rewrite after_row_self, event_reserved_keys_with. }
    split; [done|].
    destruct (after_rows_sent_prefix E evs (after_row E row s)) as [new Hnew].
    rewrite (new_requests_app _ _ new) in Hreq2 by done.
    assert (∃ xs, sent (Py.io (after_row E row s)) = sent (Py.io s) ++ xs)
      as [xs Hxs] by (rewrite after_row_sent; eauto).
    rewrite (new_requests_app _ _ xs) in Hreq1 by done.
    rewrite (new_requests_app _ _ (xs ++ new)).
    + by apply Forall_app.
    + by rewrite Hnew, Hxs, app_assoc.
Qed.

(** A parameter of the dict that no record of the batch changes is in
    every request of the call, and is still in the dict afterwards. *)
Lemma send_events_keeps E k v evs s :
  Py.fixed_dimensions (Py.self s) !! k = Some v →
  Forall (keeps_param (event_reserved_keys (Py.self s)) k v) evs →
  Py.fixed_dimensions (Py.self (final (Py.send_events E evs) s)) !! k = Some v
  ∧ Forall (has_param k v) (new_requests s (final (Py.send_events E evs) s)).
Proof.
  intros Hfd Hall. unfold final.
  destruct (enabled (Py.self s)) eqn:Hg.
  - rewrite send_events_enabled by done. simpl. case_bool_decide.
    + split; [done|]. by rewrite new_requests_same.
    + by apply after_rows_keeps.
  - rewrite send_events_disabled by done. simpl.
    destruct (truthy (Py.opt_in (Py.self s)));
      (split; [done|]); by rewrite new_requests_same.
Qed.

(** C10: a record that [send_events] processes (it is not skipped for
    its name and its [client_id] converts to [str]) leaves each of its
    valid custom parameters in the dict [fixed_dimensions] of the
    reporter, whose set of keys only grows; the parameter is then sent
    with every later request of the same batch and of later batches, as
    long as no later record sets it to another value. *)
Theorem custom_params_accumulate E (s : Py.state) (pre post later : list dict)
    (row : dict) (k : string) (v : value) :
  enabled (Py.self s) = true →
  truthy (dict_get row "name") = true →
  printable E (dict_get row "client_id") = true →
  row !! k = Some v →
  Py._is_valid_param k v (event_reserved_keys (Py.self s)) = true →
  Forall (keeps_param (event_reserved_keys (Py.self s)) k v) post →
  Forall (keeps_param (event_reserved_keys (Py.self s)) k v) later →
  let s1 := final (Py.send_events E (pre ++ [row])) s in
  let s2 := final (Py.send_events E (pre ++ row :: post)) s in
  let s3 := final (Py.send_events E later) s2 in
  Py.fixed_dimensions (Py.self s1) !! k = Some v
  ∧ dom (Py.fixed_dimensions (Py.self s))
      ⊆ dom (Py.fixed_dimensions (Py.self s2))
  ∧ dom (Py.fixed_dimensions (Py.self s2))
      ⊆ dom (Py.fixed_dimensions (Py.self s3))
  ∧ Forall (has_param k v) (new_requests s1 s2)
  ∧ Forall (has_param k v) (new_requests s2 s3).
Proof.
  intros Hg Ht Hp Hrow Hv Hpost Hlater s1 s2 s3.
  assert (s1 = after_row E row (after_rows E pre s)) as Hs1.
  { unfold s1. rewrite final_send_events by (try done; by destruct pre).
    by rewrite after_rows_app. }
  assert (s2 = after_rows E post s1) as Hs2.
  { unfold s2. rewrite final_send_events by (try done; by destruct pre).
    by rewrite Hs1, after_rows_app, after_rows_cons. }
  assert (event_reserved_keys (Py.self s1) = event_reserved_keys (Py.self s))
    as Hk1.
  { by rewrite Hs1, after_row_self, event_reserved_keys_with, after_rows_self. }
  assert (Py.fixed_dimensions (Py.self s1) !! k = Some v) as Hfd1.
  { rewrite Hs1, after_row_self. simpl. unfold merges.
    rewrite Ht, Hp. simpl. rewrite lookup_overlay, Hrow.
    by rewrite after_rows_self, event_reserved_keys_with, Hv. }
  destruct (after_rows_keeps E k v post s1 Hfd1) as [Hfd2 Hreq2].
  { by rewrite Hk1. }
  rewrite <- Hs2 in Hfd2, Hreq2.
  assert (event_reserved_keys (Py.self s2) = event_reserved_keys (Py.self s))
    as Hk2.
  { by rewrite Hs2, after_rows_self, event_reserved_keys_with. }
  destruct (send_events_keeps E k v later s2 Hfd2) as [_ Hreq3].
  { by rewrite Hk2. }
  split; [done|]. split; [|split; [|done]].
  - destruct (send_events_self E (pre ++ row :: post) s) as (d & Hd1 & Hd).
    unfold s2. by rewrite Hd1.
  - destruct (send_events_self E later s2) as (d & Hd1 & Hd).
    unfold s3. by rewrite Hd1.
Qed.

Lemma custom_params_accumulate_witness :
  let E := sample_env [] true in
  let s := sample_state ∅ in
  let keys := event_reserved_keys (Py.self s) in
  let s1 := final (Py.send_events E ([] ++ [row_full])) s in
  let s2 := final (Py.send_events E ([] ++ row_full :: [row_no_client_id])) s in
  let s3 := final (Py.send_events E [row_no_client_id]) s2 in
  (enabled (Py.self s) = true
   ∧ truthy (dict_get row_full "name") = true
   ∧ printable E (dict_get row_full "client_id") = true
   ∧ row_full !! "value" = Some (VStr "42")
   ∧ Py._is_valid_param "value" (VStr "42") keys = true
   ∧ Forall (keeps_param keys "value" (VStr "42")) [row_no_client_id])
  ∧ Py.fixed_dimensions (Py.self s1) !! "value" = Some (VStr "42")
  ∧ dom (Py.fixed_dimensions (Py.self s))
      ⊆ dom (Py.fixed_dimensions (Py.self s2))
  ∧ dom (Py.fixed_dimensions (Py.self s2))
      ⊆ dom (Py.fixed_dimensions (Py.self s3))
  ∧ Forall (has_param "value" (VStr "42")) (new_requests s1 s2)
  ∧ Forall (has_param "value" (VStr "42")) (new_requests s2 s3).
Proof.
  assert (Forall
            (keeps_param (event_reserved_keys (Py.self (sample_state ∅)))
               "value" (VStr "42"))
            [row_no_client_id]) as Hkeeps.
  { constructor; [left; vm_compute; reflexivity | constructor]. }
  split.
  - repeat split; try (vm_compute; reflexivity). exact Hkeeps.
  - apply (custom_params_accumulate (sample_env [] true) (sample_state ∅)
             [] [row_no_client_id] [row_no_client_id] row_full
             "value" (VStr "42"));
      try (vm_compute; reflexivity); exact Hkeeps.
Defined.

(** ** Construction *)

Lemma init_direct E a m o (fd : option dict) w :
  Py.__init__ E a m o fd None w =
  let t :=
    Py.mkTadau Py._GA_COLLECT_URL Py._GA_RESERVERD_KEYS Py._GA_REQUEST_KEYS
      a m o
      (Py._GA_COLLECT_URL +:+ "?api_secret=" +:+ py_str E a
         +:+ "&" +:+ "measurement_id=" +:+ py_str E m)
      (match fd with Some d => d | None => ∅ end) in
  if __debug__ E then
    if negb (truthy o) then
      (Raise (AssertionError "Tadau: Class initiated not opted in"), w)
    else if negb (truthy a) || negb (truthy m) then
      (Raise (AssertionError (Py.invalid_instance_message E t)),
       World (sent w) (log w ++ [(ERROR, MsgInvalidInstance a m)])
         (uuid_count w))
    else (Ok t, w)
  else (Ok t, w).
Proof.
  unfold Py.__init__. rewrite bind_run. unfold ret at 1. cbv beta iota.
  rewrite bind_run. unfold ret at 1. cbv beta iota zeta.
  destruct (__debug__ E); [|done].
  simpl. destruct (truthy o); simpl; [|done].
  rewrite bind_run. unfold Py._is_valid_instance. simpl.
  destruct (negb (truthy a) || negb (truthy m)); simpl; [|done].
  by destruct w.
Qed.

Lemma bind_ok_inv {S A B} (c : M S A) (k : A → M S B) s b s' :
  bind c k s = (Ok b, s') →
  ∃ a s1, c s = (Ok a, s1) ∧ k a s1 = (Ok b, s').
Proof.
  rewrite bind_run. destruct (c s) as [[a|e] s1]; [eauto|done].
Qed.

(** The reporter that [__init__] returns has the module's key lists;
    with [__debug__] it is opted in and has both credentials. *)
Lemma init_ok E a m o (fd : option dict) cfg w t w' :
  Py.__init__ E a m o fd cfg w = (Ok t, w') →
  Py._reserved_keys t = Py._GA_RESERVERD_KEYS
  ∧ Py._request_keys t = Py._GA_REQUEST_KEYS
  ∧ (__debug__ E = true → enabled t = true).
Proof.
  unfold Py.__init__.
  intros (config & w1 & _ & H)%bind_ok_inv.
  apply bind_ok_inv in H as ([[[a' m'] o'] fd'] & w2 & _ & H).
  cbv beta iota zeta in H. revert H.
  destruct (__debug__ E).
  - simpl. destruct (truthy o') eqn:Ho; simpl; [|done].
    rewrite bind_run. unfold Py._is_valid_instance. simpl.
    destruct (truthy a') eqn:Ha; simpl; [|done].
    destruct (truthy m') eqn:Hm; simpl; [|done].
    intros [= <- <-]. repeat split. unfold enabled. simpl.
    by rewrite Ho, Ha, Hm.
  - intros [= <- <-]. by repeat split.
Qed.

(** C8: when assertions are enabled ([__debug__], the default of the
    interpreter), construction from direct arguments raises
    [AssertionError] when [opt_in] is falsy, and when [opt_in] is truthy
    but [api_secret] or [measurement_id] is missing or empty, and it
    raises nothing else; a reporter that has been constructed, from
    direct arguments or from a configuration file, is opted in and has
    both credentials. *)
Theorem init_validation E (a m o : value) (fd : option dict)
    (cfg : option string) (w : world) :
  __debug__ E = true →
  (truthy o = false →
   outcome (Py.__init__ E a m o fd None) w
   = Raise (AssertionError "Tadau: Class initiated not opted in"))
  ∧ (truthy o = true → truthy a = false ∨ truthy m = false →
     ∃ msg, outcome (Py.__init__ E a m o fd None) w
            = Raise (AssertionError msg))
  ∧ (∀ e, outcome (Py.__init__ E a m o fd None) w = Raise e →
     ∃ msg, e = AssertionError msg)
  ∧ (∀ t, outcome (Py.__init__ E a m o fd cfg) w = Ok t →
     truthy (Py.opt_in t) = true
     ∧ truthy (Py.api_secret t) = true
     ∧ truthy (Py.measurement_id t) = true).
Proof.
  intros Hd. unfold outcome. rewrite init_direct, Hd. cbv zeta.
  split; [|split; [|split]].
  - by intros ->.
  - intros -> H. simpl.
    assert (negb (truthy a) || negb (truthy m) = true) as ->.
    { destruct H as [-> | ->]; [done|]. by rewrite orb_true_r. }
    eauto.
  - intros e. destruct (truthy o); simpl; [|intros [= <-]; eauto].
    destruct (negb (truthy a) || negb (truthy m)); simpl;
      [intros [= <-]; eauto|done].
  - intros t Ht.
    destruct (Py.__init__ E a m o fd cfg w) as [r w'] eqn:Hi.
    simpl in Ht. subst r.
    apply init_ok in Hi as (_ & _ & Hg). by apply enabled_true, Hg.
Qed.

Lemma init_validation_witness :
  __debug__ (sample_env [] true) = true
  ∧ (truthy (VBool true) = true → truthy VNone = false ∨ truthy VNone = false →
     ∃ msg,
       outcome
         (Py.__init__ (sample_env [] true) VNone VNone (VBool true) None None)
         empty_world
       = Raise (AssertionError msg)).
Proof.
  split; [reflexivity|].
  apply (init_validation (sample_env [] true) VNone VNone (VBool true) None
           None empty_world).
  reflexivity.
Defined.

(** C8, without assertions ([python -O]): the reporter is constructed
    although it is opted in without credentials. *)
Lemma init_unchecked_without_debug :
  ∃ t,
    Py.__init__ (sample_env [] false) VNone VNone (VBool true) None None
      empty_world
    = (Ok t, empty_world)
    ∧ truthy (Py.opt_in t) = true
    ∧ Py.api_secret t = VNone
    ∧ Py.measurement_id t = VNone.
Proof. eexists. split; [vm_compute; reflexivity|]. by repeat split. Qed.

(** C9, evaluated on the string ['false'] passed directly, as in the
    first usage example of the class: the string is stored as it is, it
    is truthy, the reporter is constructed and sends its events; the
    same string in a configuration file is parsed to [False], and a
    Boolean in a configuration file raises [AttributeError]. *)
Lemma opt_in_string_passed_directly :
  let E := sample_env [] true in
  (∃ t,
     Py.__init__ E (VStr "1232") (VStr "G-1223214") (VStr "false") None None
       empty_world
     = (Ok t, empty_world)
     ∧ Py.opt_in t = VStr "false"
     ∧ length (sent (Py.io (final (Py.send_events E [row_full])
                              (Py.State t empty_world)))) = 1)
  ∧ Py._is_opt_in (VStr "false") = Ok false
  ∧ Py._is_opt_in (VStr " True ") = Ok true
  ∧ outcome
      (Py.__init__
         (config_env
            (Config (VStr "1232") (VStr "G-1223214") (Some (VBool true)) None)
            true)
         VNone VNone (VBool false) None (Some "config.yaml"))
      empty_world
    = Raise AttributeError.
Proof.
  split; [|by vm_compute].
  eexists. split; [vm_compute; reflexivity|]. split; [done|].
  vm_compute. reflexivity.
Qed.

(** ** The request of a record *)

(** For an enabled reporter, the request of a record that is dispatched
    is the one described by [request_of], whatever comes before and
    after the record in the batch. *)
Lemma send_events_request E s pre row post n :
  enabled (Py.self s) = true →
  row !! "name" = Some (VStr n) → n ≠ "" →
  printable E (dict_get row "client_id") = true →
  sendable E row (reached E pre s) = true →
  sent (Py.io (final (Py.send_events E (pre ++ row :: post)) s))
    !! length (sent (Py.io (reached E pre s)))
  = Some (request_of E row n (reached E pre s)).
Proof.
  intros Hg Hn Hne Hp Hs.
  rewrite final_send_events by (try done; by destruct pre).
  rewrite reached_after_rows in *. by apply after_rows_request.
Qed.


Lemma is_valid_param_truthy k v keys :
  Py._is_valid_param k v keys = negb (str_in k keys) && truthy v.
Proof. unfold Py._is_valid_param. by destruct (str_in k keys), v. Qed.




(** ** The loop of [process] *)

Lemma process_row_skip E t row w :
  truthy (dict_get row "client_id") = false →
  Legacy.process_row E t row w = (Ok tt, w).
Proof. intros H. unfold Legacy.process_row. by rewrite H. Qed.

Lemma process_row_named E t row n w :
  truthy (dict_get row "client_id") = true →
  row !! "name" = Some (VStr n) →
  legacy_sendable E t row = true →
  Legacy.process_row E t row w =
  (match requests_post E (length (sent w)) (legacy_request_of E t row n) with
   | None => Ok tt
   | Some e => Raise e
   end,
   world_sent [legacy_request_of E t row n] w).
Proof.
  intros Hc Hn Hs. unfold legacy_sendable in Hs.
  apply andb_true_iff in Hs as [Hs Hparams].
  apply andb_true_iff in Hs as [Hs Hm].
  apply andb_true_iff in Hs as [Hs Ha].
  apply andb_true_iff in Hs as [Hp Hu].
  unfold Legacy.process_row. rewrite Hc. simpl.
  rewrite bind_run. unfold of_result at 1.
  rewrite (format_printable _ _ Hp). cbv beta iota.
  rewrite bind_run. unfold dict_getitem. rewrite Hn. unfold ret at 1.
  cbv beta iota. rewrite bind_run. simpl. unfold of_result at 1.
  cbv beta iota. rewrite bind_run.
  assert (∀ w0 : world,
            (if truthy (dict_get row "user_id")
             then let* u := of_result (format E (dict_get row "user_id"))
                  in ret (Some u)
             else ret None) w0
            = (Ok (if truthy (dict_get row "user_id")
                   then Some (py_str E (dict_get row "user_id")) else None),
               w0)) as ->.
  { intros w0. destruct (truthy (dict_get row "user_id")); [|done].
    rewrite bind_run. unfold of_result. by rewrite (format_printable _ _ Hu). }
  cbv beta iota. rewrite bind_run. unfold of_result at 1.
  rewrite (format_printable _ _ Ha). cbv beta iota.
  rewrite bind_run. unfold of_result at 1.
  rewrite (format_printable _ _ Hm). cbv beta iota.
  rewrite bind_run. unfold of_result, json_dumps. simpl. rewrite Hparams.
  simpl. unfold post. fold (legacy_request_of E t row n).
  by destruct (requests_post E _ _).
Qed.

(** Whatever happens in one iteration of [process], the world changes
    at most by one request appended to the trace. *)
Lemma process_row_cases E t row w :
  (∃ r, Legacy.process_row E t row w = (r, w))
  ∨ (∃ n, truthy (dict_get row "client_id") = true
          ∧ row !! "name" = Some (VStr n)
          ∧ legacy_sendable E t row = true).
Proof.
  destruct (truthy (dict_get row "client_id")) eqn:Hc;
    [|left; eexists; by apply process_row_skip].
  unfold Legacy.process_row. rewrite Hc. simpl.
  rewrite bind_run. unfold of_result at 1, format at 1.
  destruct (printable E (dict_get row "client_id")) eqn:Hp;
    [|left; by eexists].
  cbv beta iota. rewrite bind_run. unfold dict_getitem.
  destruct (row !! "name") as [v|] eqn:Hn; [|left; by eexists].
  unfold ret at 1. cbv beta iota. rewrite bind_run. unfold of_result at 1.
  destruct v as [| | | |n]; simpl; try (left; by eexists).
  rewrite bind_run.
  destruct (printable E (dict_get row "user_id")) eqn:Hu.
  - assert (∀ w0 : world,
              (if truthy (dict_get row "user_id")
               then let* u := of_result (format E (dict_get row "user_id"))
                    in ret (Some u)
               else ret None) w0
              = (Ok (if truthy (dict_get row "user_id")
                     then Some (py_str E (dict_get row "user_id")) else None),
                 w0)) as ->.
    { intros w0. destruct (truthy (dict_get row "user_id")); [|done].
      rewrite bind_run. unfold of_result.
      by rewrite (format_printable _ _ Hu). }
    cbv beta iota. rewrite bind_run. unfold of_result at 1, format at 1.
    destruct (printable E (Legacy.api_secret t)) eqn:Ha; [|left; by eexists].
    cbv beta iota. rewrite bind_run. unfold of_result at 1, format at 1.
    destruct (printable E (Legacy.measurement_id t)) eqn:Hm;
      [|left; by eexists].
    cbv beta iota. rewrite bind_run. unfold of_result, json_dumps. simpl.
    destruct (serialisable E _) eqn:Hparams; simpl; [|left; by eexists].
    right. exists n. unfold legacy_sendable.
    by rewrite Hp, Hu, Ha, Hm, Hparams.
  - assert (truthy (dict_get row "user_id") = true) as ->.
    { destruct (truthy (dict_get row "user_id")) eqn:Hc'; [done|].
      apply (printable_falsy E) in Hc'. congruence. }
    rewrite bind_run. unfold of_result, format. rewrite Hu.
    left. by eexists.
Qed.

Lemma process_row_unnamed E t row w :
  truthy (dict_get row "client_id") = true →
  (∀ n, row !! "name" ≠ Some (VStr n)) →
  ∃ e, Legacy.process_row E t row w = (Raise e, w).
Proof.
  intros Hc Hn. unfold Legacy.process_row. rewrite Hc. simpl.
  rewrite bind_run. unfold of_result at 1, format at 1.
  destruct (printable E (dict_get row "client_id")); [|by eexists].
  cbv beta iota. rewrite bind_run. unfold dict_getitem.
  destruct (row !! "name") as [v|]; [|by eexists].
  unfold ret at 1. cbv beta iota. rewrite bind_run. unfold of_result at 1.
  destruct v; simpl; try by eexists. by destruct (Hn s).
Qed.

(** One iteration of [process] appends requests and does nothing else. *)
Lemma process_row_frame E t row w :
  ∃ xs, final (Legacy.process_row E t row) w = world_sent xs w.
Proof.
  unfold final.
  destruct (process_row_cases E t row w) as [[r ->]|(n & Hc & Hn & Hs)].
  - exists []. destruct w. unfold world_sent. simpl. by rewrite app_nil_r.
  - rewrite (process_row_named _ _ _ n) by done. by eexists.
Qed.

Lemma for_each_process_frame E t evs w :
  ∃ xs, final (for_each (Legacy.process_row E t) evs) w = world_sent xs w.
Proof.
  revert w. induction evs as [|row evs IH]; intros w.
  - exists []. destruct w. unfold world_sent. simpl. by rewrite app_nil_r.
  - unfold final. simpl. rewrite bind_run.
    destruct (process_row_frame E t row w) as [xs Hxs]. unfold final in Hxs.
    destruct (Legacy.process_row E t row w) as [[[]|e] w1];
      simpl in Hxs; subst w1; [|by eexists].
    destruct (IH (world_sent xs w)) as [ys Hys]. unfold final in Hys.
    rewrite Hys. exists (xs ++ ys). unfold world_sent. simpl.
    by rewrite app_assoc.
Qed.

Lemma for_each_app {S A} (body : A → M S unit) (l1 l2 : list A) s :
  for_each body (l1 ++ l2) s =
  match for_each body l1 s with
  | (Ok _, s1) => for_each body l2 s1
  | (Raise e, s1) => (Raise e, s1)
  end.
Proof.
  revert s. induction l1 as [|x l1 IH]; intros s; [done|].
  simpl. rewrite !bind_run. destruct (body x s) as [[[]|e] s1]; [|done].
  apply IH.
Qed.

(** [process] never raises and never logs. *)
Lemma process_total E t evs w :
  outcome (Legacy.process E t evs) w = Ok tt
  ∧ log (final (Legacy.process E t evs) w) = log w.
Proof.
  unfold outcome, final, Legacy.process, try_except.
  destruct (for_each_process_frame E t evs w) as [xs Hxs].
  unfold final in Hxs.
  destruct (for_each (Legacy.process_row E t) evs w) as [[[]|e] w1];
    simpl in *; by subst w1.
Qed.

(** An exception in one record ends the loop of [process]. *)
Lemma process_abort E t pre row post w e :
  outcome (for_each (Legacy.process_row E t) pre) w = Ok tt →
  outcome (Legacy.process_row E t row)
    (final (for_each (Legacy.process_row E t) pre) w) = Raise e →
  final (Legacy.process E t (pre ++ row :: post)) w =
  final (Legacy.process_row E t row)
    (final (for_each (Legacy.process_row E t) pre) w).
Proof.
  unfold outcome, final, Legacy.process, try_except.
  rewrite for_each_app.
  destruct (for_each (Legacy.process_row E t) pre w) as [[[]|e'] w1];
    simpl; [|done].
  intros _. rewrite bind_run.
  destruct (Legacy.process_row E t row w1) as [[[]|e'] w2]; simpl; done.
Qed.

(** The request of a record that the loop of [process] reaches. *)
Lemma process_request E t pre row post n w :
  outcome (for_each (Legacy.process_row E t) pre) w = Ok tt →
  truthy (dict_get row "client_id") = true →
  row !! "name" = Some (VStr n) →
  legacy_sendable E t row = true →
  sent (final (Legacy.process E t (pre ++ row :: post)) w)
    !! length (sent (final (for_each (Legacy.process_row E t) pre) w))
  = Some (legacy_request_of E t row n).
Proof.
  unfold outcome, final, Legacy.process, try_except.
  rewrite for_each_app.
  destruct (for_each (Legacy.process_row E t) pre w) as [[[]|e'] w1];
    simpl; [|done].
  intros _ Hc Hn Hs. rewrite bind_run.
  rewrite (process_row_named _ _ _ n) by done.
  assert (∀ ys, (sent (world_sent [legacy_request_of E t row n] w1) ++ ys)
                  !! length (sent w1)
                = Some (legacy_request_of E t row n)) as Hat.
  { intros ys. simpl. rewrite <- app_assoc.
    rewrite lookup_app_r by lia. by rewrite Nat.sub_diag. }
  destruct (requests_post E _ _).
  - simpl. rewrite <- (app_nil_r (_ ++ _)). apply (Hat []).
  - destruct (for_each_process_frame E t post
                (world_sent [legacy_request_of E t row n] w1)) as [ys Hys].
    unfold final in Hys.
    destruct (for_each (Legacy.process_row E t) post _) as [[[]|e'] w2];
      simpl in *; subst w2; apply Hat.
Qed.

(** ** The sanitised name *)

(** The ranges of the regular expression denote the alphabet. *)
Lemma in_class_alphabet c : Py.in_class c = in_alphabet c.
Proof.
  destruct c as [[] [] [] [] [] [] [] []]; vm_compute; reflexivity.
Qed.

Lemma str_filter_ext (f g : ascii → bool) s :
  (∀ c, f c = g c) → str_filter f s = str_filter g s.
Proof.
  intros Hfg. induction s as [|c s IH]; [done|].
  simpl. by rewrite Hfg, IH.
Qed.

Lemma str_filter_in_class s : str_filter Py.in_class s = keep_alphabet s.
Proof. apply str_filter_ext, in_class_alphabet. Qed.

(** C5: the event name of a dispatched record (its identifiers convert
    to [str] and its payload can be serialised) is its name without the
    characters outside [A-Za-z0-9-], in [send_events] and in [process];
    ["event name 1"] becomes ["eventname1"]. *)
Theorem event_name_sanitised E (row : dict) (n : string) (pre post : list dict) :
  row !! "name" = Some (VStr n) → n ≠ "" →
  (∀ s, enabled (Py.self s) = true →
     printable E (dict_get row "client_id") = true →
     sendable E row (reached E pre s) = true →
     ∃ req params,
       sent (Py.io (final (Py.send_events E (pre ++ row :: post)) s))
         !! length (sent (Py.io (reached E pre s))) = Some req
       ∧ events (data req) = [Event (keep_alphabet n) params])
  ∧ (∀ t w,
       outcome (for_each (Legacy.process_row E t) pre) w = Ok tt →
       truthy (dict_get row "client_id") = true →
       legacy_sendable E t row = true →
       ∃ req params,
         sent (final (Legacy.process E t (pre ++ row :: post)) w)
           !! length (sent (final (for_each (Legacy.process_row E t) pre) w))
         = Some req
         ∧ events (data req) = [Event (keep_alphabet n) params])
  ∧ Py._format_to_alphanumeric (VStr "event name 1") = Ok "eventname1"
  ∧ Legacy._filter_alphanumeric_only (VStr "event name 1") = Ok "eventname1".
Proof.
  intros Hn Hne. split; [|split; [|done]].
  - intros s Hg Hp Hs. eexists _, _. split; [by apply send_events_request|].
    simpl. by rewrite str_filter_in_class.
  - intros t w Hpre Hc Hs. eexists _, _. split; [by apply process_request|].
    simpl. by rewrite str_filter_in_class.
Qed.

Lemma event_name_sanitised_witness :
  (row_full !! "name" = Some (VStr "event name 1") ∧ "event name 1" ≠ "")
  ∧ ∃ req params,
      sent (Py.io (final (Py.send_events (sample_env [] true)
                            ([] ++ row_full :: [])) (sample_state ∅)))
        !! length (sent (Py.io (reached (sample_env [] true) []
                                  (sample_state ∅)))) = Some req
      ∧ events (data req) = [Event (keep_alphabet "event name 1") params].
Proof.
  split; [split; [reflexivity|discriminate]|].
  destruct (event_name_sanitised (sample_env [] true) row_full
              "event name 1" [] []) as [H _];
    [reflexivity|discriminate|].
  apply (H (sample_state ∅));
    [reflexivity|vm_compute; reflexivity|vm_compute; reflexivity].
Defined.

(** ** The identifiers of the payload *)

Lemma after_row_uuid_count E row n s :
  row !! "name" = Some (VStr n) → n ≠ "" →
  uuid_count (Py.io (after_row E row s)) =
  if truthy (dict_get row "client_id") then uuid_count (Py.io s)
  else S (uuid_count (Py.io s)).
Proof.
  intros Hn Hne. unfold after_row. rewrite (dict_get_lookup _ _ _ Hn).
  assert (truthy (VStr n) = true) as -> by by destruct n.
  simpl. destruct (printable E (dict_get row "client_id")) eqn:Hp; simpl.
  - destruct (sendable E row s); [|done]. by destruct (requests_post E _ _).
  - destruct (truthy (dict_get row "client_id")) eqn:Ht; [done|].
    by rewrite printable_falsy in Hp.
Qed.

(** C7: for a record whose identifiers convert to [str] and whose
    payload can be serialised, the [client_id] of the payload is the one
    of the record, as a string, when it is present and truthy, and
    otherwise the next UUID of the generator, which is then used up; the
    record is dispatched in both cases. The payload has a [user_id]
    exactly when the one of the record is present and truthy, and it is
    that value as a string. *)
Theorem client_id_and_user_id E (s : Py.state) (pre post : list dict)
    (row : dict) (n : string) :
  enabled (Py.self s) = true →
  row !! "name" = Some (VStr n) → n ≠ "" →
  printable E (dict_get row "client_id") = true →
  sendable E row (reached E pre s) = true →
  let s1 := reached E pre s in
  ∃ req,
    sent (Py.io (final (Py.send_events E (pre ++ row :: post)) s))
      !! length (sent (Py.io s1)) = Some req
    ∧ client_id (data req) =
      (if truthy (dict_get row "client_id")
       then py_str E (dict_get row "client_id")
       else uuid4 E (uuid_count (Py.io s1)))
    ∧ (∀ c, row !! "client_id" = Some (VStr c) → c ≠ "" →
       client_id (data req) = c)
    ∧ uuid_count (Py.io (reached E (pre ++ [row]) s)) =
      (if truthy (dict_get row "client_id") then uuid_count (Py.io s1)
       else S (uuid_count (Py.io s1)))
    ∧ user_id (data req) =
      (if truthy (dict_get row "user_id")
       then Some (py_str E (dict_get row "user_id"))
       else None)
    ∧ (∀ u, row !! "user_id" = Some (VStr u) → u ≠ "" →
       user_id (data req) = Some u)
    ∧ (is_Some (user_id (data req))
       ↔ truthy (dict_get row "user_id") = true).
Proof.
  intros Hg Hn Hne Hp Hs s1. eexists. split; [by apply send_events_request|].
  simpl. split; [done|]. split; [|split; [|split; [done|split]]].
  - intros c Hc Hcne. rewrite (dict_get_lookup _ _ _ Hc). by destruct c.
  - rewrite !reached_after_rows, after_rows_app. simpl.
    unfold s1. rewrite reached_after_rows. by apply (after_row_uuid_count _ _ n).
  - intros u Hu Hune. rewrite (dict_get_lookup _ _ _ Hu). by destruct u.
  - destruct (truthy (dict_get row "user_id")); split; done.
Qed.

Lemma client_id_and_user_id_witness :
  let E := sample_env [] true in
  let s := sample_state ∅ in
  (enabled (Py.self s) = true
   ∧ row_no_client_id !! "name" = Some (VStr "event_name")
   ∧ "event_name" ≠ ""
   ∧ printable E (dict_get row_no_client_id "client_id") = true
   ∧ sendable E row_no_client_id (reached E [row_full] s) = true)
  ∧ ∃ req,
      sent (Py.io (final (Py.send_events E ([row_full] ++ row_no_client_id :: []))
                     s))
        !! length (sent (Py.io (reached E [row_full] s))) = Some req
      ∧ client_id (data req) =
        (if truthy (dict_get row_no_client_id "client_id")
         then py_str E (dict_get row_no_client_id "client_id")
         else uuid4 E (uuid_count (Py.io (reached E [row_full] s)))).
Proof.
  split;
    [split; [reflexivity | split; [reflexivity | split; [discriminate |
      split; [reflexivity | vm_compute; reflexivity] ] ] ] |].
  destruct (client_id_and_user_id (sample_env [] true) (sample_state ∅)
              [row_full] [] row_no_client_id "event_name")
    as (req & Hreq & Hcid & _);
    [reflexivity | reflexivity | discriminate | reflexivity
    | vm_compute; reflexivity |].
  exists req. exact (conj Hreq Hcid).
Defined.

(** ** Records that are skipped *)

Lemma after_rows_serialisable E evs s :
  serialisable E (Py.fixed_dimensions (Py.self s)) = true →
  Forall (fun row => serialisable E row = true) evs →
  serialisable E (Py.fixed_dimensions (Py.self (after_rows E evs s))) = true.
Proof.
  revert s. induction evs as [|row evs IH]; intros s Hfd Hall; [done|].
  apply Forall_cons in Hall as [Hrow Hall].
  destruct (serialisable_sendable E row s Hrow Hfd) as (_ & _ & Hfd').
  rewrite after_rows_cons. by apply IH.
Qed.

Lemma send_events_new_requests_length E evs s :
  enabled (Py.self s) = true →
  serialisable E (Py.fixed_dimensions (Py.self s)) = true →
  Forall (fun row => serialisable E row = true) evs →
  length (new_requests s (final (Py.send_events E evs) s))
  = length (filter (fun row => named row = true) evs).
Proof.
  intros Hg Hfd Hall. unfold final. rewrite send_events_enabled by done. simpl.
  case_bool_decide as Hevs.
  - subst evs. by rewrite new_requests_same.
  - destruct (after_rows_sent_prefix E evs s) as [new Hnew].
    rewrite (new_requests_app _ _ new) by done.
    pose proof (after_rows_sent_length E evs s Hfd Hall) as Hlen.
    rewrite Hnew, length_app in Hlen. lia.
Qed.

(** C6: in [send_events] a record whose name is missing or empty is
    skipped with a warning and without request. When the values of the
    reporter and of the records convert to [str], so that every payload
    can be serialised, every record whose name is a non-empty string has
    its request, with or without [client_id], and a batch of two records
    of which one has no name yields one request. In [process] a record
    without a truthy [client_id] is skipped, without request and without
    log record, whatever its name. *)
Theorem missing_name_skipped E (s : Py.state) :
  enabled (Py.self s) = true →
  serialisable E (Py.fixed_dimensions (Py.self s)) = true →
  (∀ s0 row, truthy (dict_get row "name") = false →
     Py.send_row_guarded E row s0 = (Ok tt, add_log (WARNING, MsgEmptyName) s0))
  ∧ (∀ evs, Forall (fun row => serialisable E row = true) evs →
       length (new_requests s (final (Py.send_events E evs) s))
       = length (filter (fun row => named row = true) evs))
  ∧ (∀ pre row post n, row !! "name" = Some (VStr n) → n ≠ "" →
       Forall (fun row => serialisable E row = true) pre →
       serialisable E row = true →
       ∃ req,
         sent (Py.io (final (Py.send_events E (pre ++ row :: post)) s))
           !! length (sent (Py.io (reached E pre s))) = Some req
         ∧ (row !! "client_id" = None →
            client_id (data req)
            = uuid4 E (uuid_count (Py.io (reached E pre s)))))
  ∧ (∀ r1 r2, named r1 = true → truthy (dict_get r2 "name") = false →
       serialisable E r1 = true → serialisable E r2 = true →
       length (new_requests s (final (Py.send_events E [r1; r2]) s)) = 1
       ∧ length (new_requests s (final (Py.send_events E [r2; r1]) s)) = 1)
  ∧ (∀ t w row, truthy (dict_get row "client_id") = false →
       Legacy.process_row E t row w = (Ok tt, w)).
Proof.
  intros Hg Hfd. split; [|split; [|split; [|split]]].
  - intros s0 row Hn. rewrite send_row_guarded_after. unfold after_row.
    by rewrite Hn.
  - intros evs Hall. by apply send_events_new_requests_length.
  - intros pre row post n Hn Hne Hpre Hrow.
    destruct (serialisable_sendable E row (reached E pre s) Hrow)
      as (Hp & Hs & _).
    { rewrite reached_after_rows. by apply after_rows_serialisable. }
    eexists. split; [by apply send_events_request|].
    intros Hc. simpl. unfold dict_get. by rewrite Hc.
  - intros r1 r2 H1 H2 Hs1 Hs2.
    assert (named r2 = false) as H2'.
    { destruct (named r2) eqn:Hn2; [|done].
      apply named_truthy in Hn2. congruence. }
    split;
      rewrite send_events_new_requests_length
        by (try done; by repeat constructor);
      rewrite !filter_cons, filter_nil.
    + rewrite decide_True by done. by rewrite decide_False by congruence.
    + rewrite decide_False by congruence. by rewrite decide_True by done.
  - intros t w row Hc. by apply process_row_skip.
Qed.

Lemma missing_name_skipped_witness :
  let E := sample_env [] true in
  let s := sample_state {[ "deploy_id" := VInt 7 ]} in
  (enabled (Py.self s) = true
   ∧ serialisable E (Py.fixed_dimensions (Py.self s)) = true
   ∧ named row_numbers = true
   ∧ truthy (dict_get row_no_name "name") = false
   ∧ serialisable E row_numbers = true
   ∧ serialisable E row_no_name = true)
  ∧ length (new_requests s
              (final (Py.send_events E [row_numbers; row_no_name]) s)) = 1
  ∧ length (new_requests s
              (final (Py.send_events E [row_no_name; row_numbers]) s)) = 1.
Proof.
  split;
    [split; [reflexivity | split; [vm_compute; reflexivity | split;
      [reflexivity | split; [reflexivity | split;
        vm_compute; reflexivity ] ] ] ] |].
  destruct (missing_name_skipped (sample_env [] true)
              (sample_state {[ "deploy_id" := VInt 7 ]}))
    as (_ & _ & _ & H & _);
    [reflexivity | vm_compute; reflexivity |].
  apply (H row_numbers row_no_name);
    [reflexivity | reflexivity | vm_compute; reflexivity
    | vm_compute; reflexivity].
Defined.

(** C6, on the second batch of the tests of [process]: the record has a
    non-empty name and lacks only [client_id]; it produces no request. *)
Lemma process_skips_missing_client_id :
  let E := sample_env [] true in
  let t := Legacy.__init__ ∅ in
  named row_no_client_id = true
  ∧ row_no_client_id !! "client_id" = None
  ∧ final (Legacy.process E t [row_no_client_id]) empty_world = empty_world
  ∧ length (sent (final (Legacy.process E t [row_full; row_no_client_id])
                    empty_world)) = 1.
Proof. vm_compute. by repeat split. Qed.

(** ** Exceptions *)

Lemma send_events_total E evs s : outcome (Py.send_events E evs) s = Ok tt.
Proof.
  unfold outcome. destruct (enabled (Py.self s)) eqn:Hg.
  - by rewrite send_events_enabled.
  - by rewrite send_events_disabled.
Qed.

(** C3: in [send_events] an exception raised for one record is caught
    and logged with the record, and the loop goes on with the next
    record; in [process] one handler encloses the whole loop: the
    exception is dropped without log record and the records that follow
    are not processed. Neither function raises. *)
Theorem failure_isolation E :
  (∀ s evs, outcome (Py.send_events E evs) s = Ok tt)
  ∧ (∀ s row e, outcome (Py.send_row E row) s = Raise e →
       Py.send_row_guarded E row s
       = (Ok tt,
          add_log (ERROR, MsgErrorSending row) (final (Py.send_row E row) s)))
  ∧ (∀ s pre row post, enabled (Py.self s) = true →
       final (Py.send_events E (pre ++ row :: post)) s
       = final (for_each (Py.send_row_guarded E) post)
           (final (Py.send_row_guarded E row) (reached E pre s)))
  ∧ (∀ t w evs,
       outcome (Legacy.process E t evs) w = Ok tt
       ∧ log (final (Legacy.process E t evs) w) = log w)
  ∧ (∀ t w pre row post e,
       outcome (for_each (Legacy.process_row E t) pre) w = Ok tt →
       outcome (Legacy.process_row E t row)
         (final (for_each (Legacy.process_row E t) pre) w) = Raise e →
       final (Legacy.process E t (pre ++ row :: post)) w
       = final (Legacy.process_row E t row)
           (final (for_each (Legacy.process_row E t) pre) w)).
Proof.
  split; [|split; [|split; [|split]]].
  - intros s evs. apply send_events_total.
  - intros s row e. unfold outcome, final, Py.send_row_guarded, try_except.
    destruct (Py.send_row E row s) as [[[]|e'] s1]; simpl; [done|].
    intros _. by destruct s1 as [t [snt lg n]].
  - intros s pre row post Hg.
    rewrite final_send_events by (try done; by destruct pre).
    unfold final. rewrite for_each_guarded, send_row_guarded_after.
    rewrite reached_after_rows. simpl.
    by rewrite after_rows_app, after_rows_cons.
  - intros t w evs. apply process_total.
  - intros t w pre row post e. apply process_abort.
Qed.

Lemma failure_isolation_witness :
  outcome (Py.send_row (sample_env [0] true) row_full) (sample_state ∅)
  = Raise RequestException
  ∧ Py.send_row_guarded (sample_env [0] true) row_full (sample_state ∅)
    = (Ok tt,
       add_log (ERROR, MsgErrorSending row_full)
         (final (Py.send_row (sample_env [0] true) row_full)
            (sample_state ∅))).
Proof.
  split; [vm_compute; reflexivity|].
  destruct (failure_isolation (sample_env [0] true)) as (_ & H & _).
  apply (H (sample_state ∅) row_full RequestException).
  vm_compute. reflexivity.
Defined.

(** C3, on a batch of [process] whose first record has no name: the
    exception of the first record is not logged and the second record,
    which alone is dispatched, is not processed. *)
Lemma process_aborts_batch :
  let E := sample_env [] true in
  let t := Legacy.__init__ ∅ in
  outcome (Legacy.process_row E t row_no_name) empty_world
  = Raise (KeyError "name")
  ∧ length (sent (final (Legacy.process E t [row_full]) empty_world)) = 1
  ∧ final (Legacy.process E t [row_no_name; row_full]) empty_world
    = empty_world.
Proof. vm_compute. by repeat split. Qed.

(** * Further properties *)

(** ** The requests of a call *)

(** Every request of the loop is the request of one of the records, in
    the state in which the loop reached that record. *)
Lemma after_rows_new_requests E evs s :
  Forall
    (fun req =>
       ∃ pre row post n,
         evs = pre ++ row :: post
         ∧ row !! "name" = Some (VStr n) ∧ n ≠ ""
         ∧ req = request_of E row n (after_rows E pre s))
    (new_requests s (after_rows E evs s)).
Proof.
  revert s. induction evs as [|row evs IH]; intros s.
  - simpl. by rewrite new_requests_same.
  - rewrite after_rows_cons.
    destruct (after_rows_sent_prefix E evs (after_row E row s)) as [new Hnew].
    pose proof (IH (after_row E row s)) as Hrest.
    rewrite (new_requests_app _ _ new) in Hrest by done.
    assert (Forall
              (fun req =>
                 ∃ pre row0 post n,
                   row :: evs = pre ++ row0 :: post
                   ∧ row0 !! "name" = Some (VStr n) ∧ n ≠ ""
                   ∧ req = request_of E row0 n (after_rows E pre s))
              new) as Hrest'.
    { eapply Forall_impl; [exact Hrest|].
      intros req (pre & row0 & post & n & -> & Hn & Hne & ->).
      exists (row :: pre), row0, post, n. by repeat split. }
    destruct (dispatched E row s) eqn:Hdisp.
    + assert (named row = true) as (n & Hn & Hne)%named_spec.
      { unfold dispatched in Hdisp. by destruct (named row). }
      rewrite (new_requests_app _ _ ([request_of E row n s] ++ new)).
      * apply Forall_app. split; [|done]. constructor; [|constructor].
        exists [], row, evs, n. by repeat split.
      * rewrite Hnew, after_row_sent, Hdisp. unfold row_name. rewrite Hn.
        by rewrite <- app_assoc.
    + rewrite (new_requests_app _ _ new); [done|].
      by rewrite Hnew, after_row_sent, Hdisp, app_nil_r.
Qed.

Lemma send_events_new_requests E evs s :
  Forall
    (fun req =>
       ∃ pre row post n,
         evs = pre ++ row :: post
         ∧ row !! "name" = Some (VStr n) ∧ n ≠ ""
         ∧ req = request_of E row n (after_rows E pre s))
    (new_requests s (final (Py.send_events E evs) s)).
Proof.
  unfold final. destruct (enabled (Py.self s)) eqn:Hg.
  - rewrite send_events_enabled by done. simpl. case_bool_decide.
    + by rewrite new_requests_same.
    + apply after_rows_new_requests.
  - rewrite send_events_disabled by done. simpl.
    destruct (truthy (Py.opt_in (Py.self s))); by rewrite new_requests_same.
Qed.

(** X1: every request of a call goes to the URL that the reporter
    holds, has [non_personalized_ads] set and carries exactly one
    event; for a reporter constructed from direct arguments the URL is
    the collect endpoint followed by the two credentials. *)
Theorem requests_shape E (s : Py.state) (evs : list dict) :
  Forall
    (fun req =>
       url req = Py._target_url (Py.self s)
       ∧ non_personalized_ads (data req) = true
       ∧ length (events (data req)) = 1)
    (new_requests s (final (Py.send_events E evs) s))
  ∧ (∀ a m o fd w t w',
       Py.__init__ E a m o fd None w = (Ok t, w') →
       Py._target_url t =
       "https://www.google-analytics.com/mp/collect?api_secret="
         +:+ py_str E a +:+ "&measurement_id=" +:+ py_str E m).
Proof.
  split.
  - eapply Forall_impl; [apply send_events_new_requests|].
    intros req (pre & row & post & n & _ & _ & _ & ->). simpl.
    by rewrite after_rows_self.
  - intros a m o fd w t w'. rewrite init_direct. cbv zeta.
    destruct (__debug__ E); [|by intros [= <- _]].
    destruct (negb (truthy o)); [done|].
    destruct (negb (truthy a) || negb (truthy m)); [done|].
    by intros [= <- _].
Qed.

(** A property of the dict that every merge keeps holds for the
    parameters of every request, and for the dict after the call. *)
Lemma send_events_invariant E (P : dict → Prop) evs s :
  (∀ row fd, P fd → P (overlay (event_reserved_keys (Py.self s)) row fd)) →
  P (Py.fixed_dimensions (Py.self s)) →
  Forall (all_params P) (new_requests s (final (Py.send_events E evs) s))
  ∧ P (Py.fixed_dimensions (Py.self (final (Py.send_events E evs) s))).
Proof.
  intros Hstep H0.
  assert (∀ l, P (merged_dims E (event_reserved_keys (Py.self s)) l
                    (Py.fixed_dimensions (Py.self s)))) as Hdims.
  { intros l. revert H0. generalize (Py.fixed_dimensions (Py.self s)).
    induction l as [|row l IH]; intros fd Hfd; [done|].
    simpl. apply IH. destruct (merges E row); auto. }
  split.
  - eapply Forall_impl; [apply send_events_new_requests|].
    intros req (pre & row & post & n & _ & _ & _ & ->).
    constructor; [|constructor]. simpl.
    rewrite after_rows_self. simpl. apply Hstep, Hdims.
  - unfold final. destruct (enabled (Py.self s)) eqn:Hg.
    + rewrite send_events_enabled by done. simpl. case_bool_decide; [done|].
      rewrite after_rows_self. apply Hdims.
    + rewrite send_events_disabled by done. simpl.
      by destruct (truthy (Py.opt_in (Py.self s))).
Qed.

(** X2: a reserved key that is not in the dict of the reporter is in
    the parameters of no request, whatever the records carry under that
    key, and it is still not in the dict after the call. *)
Theorem reserved_key_never_sent E (s : Py.state) (evs : list dict)
    (k : string) :
  str_in k (event_reserved_keys (Py.self s)) = true →
  Py.fixed_dimensions (Py.self s) !! k = None →
  Forall (all_params (fun params => params !! k = None))
    (new_requests s (final (Py.send_events E evs) s))
  ∧ Py.fixed_dimensions (Py.self (final (Py.send_events E evs) s)) !! k = None.
Proof.
  intros Hk Hfd.
  apply (send_events_invariant E (fun params => params !! k = None));
    [|done].
  intros row fd Hnone. rewrite lookup_overlay.
  destruct (row !! k) as [v|]; [|done].
  unfold Py._is_valid_param. by rewrite Hk.
Qed.

Lemma reserved_key_never_sent_witness :
  (str_in "client_id" (event_reserved_keys (Py.self (sample_state ∅))) = true
   ∧ Py.fixed_dimensions (Py.self (sample_state ∅)) !! "client_id" = None)
  ∧ Forall (all_params (fun params => params !! "client_id" = None))
      (new_requests (sample_state ∅)
         (final (Py.send_events (sample_env [] true) [row_full])
            (sample_state ∅)))
  ∧ Py.fixed_dimensions
      (Py.self (final (Py.send_events (sample_env [] true) [row_full])
                  (sample_state ∅))) !! "client_id" = None.
Proof.
  split; [split; reflexivity|].
  apply (reserved_key_never_sent (sample_env [] true) (sample_state ∅)
           [row_full] "client_id"); reflexivity.
Defined.

(** X3: when every value of the dict of the reporter is truthy, every
    parameter of every request is truthy, and so is every value of the
    dict after the call: [None], [''], [0] and [False] are never
    sent. *)
Theorem falsy_value_never_sent E (s : Py.state) (evs : list dict) :
  map_Forall (fun _ v => truthy v = true) (Py.fixed_dimensions (Py.self s)) →
  Forall (all_params (map_Forall (fun _ v => truthy v = true)))
    (new_requests s (final (Py.send_events E evs) s))
  ∧ map_Forall (fun _ v => truthy v = true)
      (Py.fixed_dimensions (Py.self (final (Py.send_events E evs) s))).
Proof.
  intros Hfd.
  apply (send_events_invariant E (map_Forall (fun _ v => truthy v = true)));
    [|done].
  intros row fd Hall k v. rewrite lookup_overlay.
  destruct (row !! k) as [v'|] eqn:Hrow; [|apply Hall].
  destruct (Py._is_valid_param k v' _) eqn:Hv; [|apply Hall].
  intros [= <-]. unfold Py._is_valid_param in Hv.
  by apply andb_true_iff in Hv as [_ Hv].
Qed.

Lemma falsy_value_never_sent_witness :
  let E := sample_env [] true in
  let s := sample_state dims_truthy in
  let s' := final (Py.send_events E [row_falsy; row_numbers]) s in
  map_Forall (fun _ v => truthy v = true) (Py.fixed_dimensions (Py.self s))
  ∧ row_falsy !! "none" = Some VNone
  ∧ row_falsy !! "empty" = Some (VStr "")
  ∧ row_falsy !! "zero" = Some (VInt 0)
  ∧ row_falsy !! "false" = Some (VBool false)
  ∧ length (new_requests s s') = 2
  ∧ Forall (all_params (map_Forall (fun _ v => truthy v = true)))
      (new_requests s s')
  ∧ map_Forall (fun _ v => truthy v = true) (Py.fixed_dimensions (Py.self s')).
Proof.
  assert (map_Forall (fun _ v => truthy v = true)
            (Py.fixed_dimensions (Py.self (sample_state dims_truthy))))
    as Hfd.
  { apply (bool_decide_unpack (map_Forall (fun _ v => truthy v = true) _)).
    vm_compute. exact I. }
  split; [exact Hfd|].
  split; [reflexivity|]. split; [reflexivity|]. split; [reflexivity|].
  split; [reflexivity|]. split; [vm_compute; reflexivity|].
  exact (falsy_value_never_sent (sample_env [] true)
           (sample_state dims_truthy) [row_falsy; row_numbers] Hfd).
Defined.

(** X4: a call never changes the credentials, the opt-in flag, the
    target URL or the key lists of the reporter. *)
Theorem send_events_keeps_configuration E (s : Py.state) (evs : list dict) :
  let t' := Py.self (final (Py.send_events E evs) s) in
  Py.api_secret t' = Py.api_secret (Py.self s)
  ∧ Py.measurement_id t' = Py.measurement_id (Py.self s)
  ∧ Py.opt_in t' = Py.opt_in (Py.self s)
  ∧ Py._target_url t' = Py._target_url (Py.self s)
  ∧ Py._api_url t' = Py._api_url (Py.self s)
  ∧ Py._reserved_keys t' = Py._reserved_keys (Py.self s)
  ∧ Py._request_keys t' = Py._request_keys (Py.self s).
Proof.
  destruct (send_events_self E evs s) as (d & Hd & _). cbv zeta.
  rewrite Hd. by repeat split.
Qed.

(** ** Successive calls *)

(** X5: for a reporter that is opted in with credentials, sending two
    non-empty batches one after the other has the same result as
    sending their concatenation in one call. *)
Theorem send_events_app E (s : Py.state) (b1 b2 : list dict) :
  enabled (Py.self s) = true → b1 ≠ [] → b2 ≠ [] →
  Py.send_events E (b1 ++ b2) s
  = Py.send_events E b2 (final (Py.send_events E b1) s).
Proof.
  intros Hg H1 H2.
  rewrite final_send_events by done.
  rewrite (send_events_enabled E b2) by by rewrite after_rows_enabled.
  rewrite send_events_enabled by done.
  rewrite !bool_decide_eq_false_2; [|done|by destruct b1].
  by rewrite after_rows_app.
Qed.

Lemma send_events_app_witness :
  (enabled (Py.self (sample_state ∅)) = true
   ∧ [row_full] ≠ [] ∧ [row_no_client_id] ≠ [])
  ∧ Py.send_events (sample_env [] true) ([row_full] ++ [row_no_client_id])
      (sample_state ∅)
    = Py.send_events (sample_env [] true) [row_no_client_id]
        (final (Py.send_events (sample_env [] true) [row_full])
           (sample_state ∅)).
Proof.
  split; [split; [reflexivity|split; discriminate]|].
  apply (send_events_app (sample_env [] true) (sample_state ∅)
           [row_full] [row_no_client_id]);
    [reflexivity|discriminate|discriminate].
Defined.

(** ** The UUID generator *)

Lemma after_row_uuid E row s :
  uuid_count (Py.io (after_row E row s))
  = uuid_count (Py.io s) + (if draws_uuid row then 1 else 0).
Proof.
  unfold after_row, draws_uuid.
  destruct (truthy (dict_get row "name")) eqn:Ht; simpl; [|lia].
  assert (uuid_count (Py.io (merged_state row s))
          = uuid_count (Py.io s)
            + (if negb (truthy (dict_get row "client_id")) then 1 else 0))
    as Hm.
  { simpl. destruct (truthy (dict_get row "client_id")); simpl; lia. }
  destruct (printable E (dict_get row "client_id")) eqn:Hp; simpl.
  - destruct (dict_get row "name"); try done.
    destruct (sendable E row s); [|done].
    by destruct (requests_post E _ _).
  - destruct (truthy (dict_get row "client_id")) eqn:Hc; simpl; [lia|].
    by rewrite printable_falsy in Hp.
Qed.

(** X6: a call of an enabled reporter draws one UUID for each record
    that is not skipped for its name and has no truthy [client_id], and
    no other: a record with its own [client_id] never uses the
    generator. *)
Theorem uuid_draws E (s : Py.state) (evs : list dict) :
  enabled (Py.self s) = true →
  uuid_count (Py.io (final (Py.send_events E evs) s))
  = uuid_count (Py.io s)
    + length (filter (fun row => draws_uuid row = true) evs).
Proof.
  intros Hg. unfold final. rewrite send_events_enabled by done. simpl.
  case_bool_decide as Hevs; [subst evs; simpl; lia|]. clear Hg Hevs.
  revert s. induction evs as [|row evs IH]; intros s; [simpl; lia|].
  rewrite after_rows_cons, IH, after_row_uuid, filter_cons.
  destruct (draws_uuid row) eqn:Hd.
  - rewrite decide_True by done. simpl. lia.
  - rewrite decide_False by done. lia.
Qed.

Lemma uuid_draws_witness :
  enabled (Py.self (sample_state ∅)) = true
  ∧ uuid_count
      (Py.io (final (Py.send_events (sample_env [] true)
                       [row_full; row_no_client_id])
                (sample_state ∅)))
    = uuid_count (Py.io (sample_state ∅))
      + length (filter (fun row => draws_uuid row = true)
                  [row_full; row_no_client_id]).
Proof.
  split; [reflexivity|].
  apply (uuid_draws (sample_env [] true) (sample_state ∅)
           [row_full; row_no_client_id]).
  reflexivity.
Defined.

(** ** The log *)

Lemma new_log_app s s' xs :
  log (Py.io s') = log (Py.io s) ++ xs → new_log s s' = xs.
Proof. unfold new_log. intros ->. apply drop_app_length. Qed.

Lemma filter_row_record_warnings keys rkeys l :
  filter (fun e => row_record e = true) (param_warnings keys rkeys l) = [].
Proof.
  induction l as [|[k v] l IH]; [done|].
  unfold param_warnings in *. simpl. rewrite filter_app, IH, app_nil_r.
  destruct (Py._is_valid_param k v keys); [done|].
  by destruct (negb (str_in k rkeys)).
Qed.

(** The log after one iteration: the warnings of the merge, if the row
    is merged, and one closing record. *)
Lemma after_row_log E row s :
  ∃ e, row_record e = true
    ∧ log (Py.io (after_row E row s))
      = log (Py.io s)
        ++ (if merges E row
            then param_warnings (event_reserved_keys (Py.self s))
                   (Py._request_keys (Py.self s)) (map_to_list row)
            else [])
        ++ [e].
Proof.
  unfold after_row, merges.
  destruct (truthy (dict_get row "name")) eqn:Ht; simpl;
    [|by eexists (WARNING, MsgEmptyName)].
  destruct (printable E (dict_get row "client_id")) eqn:Hp; simpl;
    [|by eexists (ERROR, MsgErrorSending row)].
  destruct (dict_get row "name");
    try (eexists (ERROR, MsgErrorSending row); split; [done|];
         simpl; by rewrite <- app_assoc).
  destruct (sendable E row s);
    [|eexists (ERROR, MsgErrorSending row); split; [done|];
      simpl; by rewrite <- app_assoc].
  destruct (requests_post E _ _);
    eexists; (split; [|simpl; by rewrite <- app_assoc]); done.
Qed.

(** X7: every record of a batch is accounted for in the log of an
    enabled reporter: the call adds exactly one closing record per
    record of the batch (the warning of an empty name, the information
    that the event was sent, or the error met while sending it). *)
Theorem one_log_record_per_row E (s : Py.state) (evs : list dict) :
  enabled (Py.self s) = true →
  length (filter (fun e => row_record e = true)
            (new_log s (final (Py.send_events E evs) s)))
  = length evs.
Proof.
  intros Hg. unfold final. rewrite send_events_enabled by done. simpl.
  case_bool_decide as Hevs.
  { subst evs. rewrite (new_log_app _ _ [(DEBUG, MsgEventsEmpty)]); done. }
  clear Hg Hevs.
  assert (∀ l s0, ∃ xs,
            log (Py.io (after_rows E l s0)) = log (Py.io s0) ++ xs
            ∧ length (filter (fun e => row_record e = true) xs) = length l)
    as Hlog.
  { induction l as [|row l IH]; intros s0.
    - exists []. by rewrite app_nil_r.
    - rewrite after_rows_cons.
      destruct (IH (after_row E row s0)) as (xs & -> & Hlen).
      destruct (after_row_log E row s0) as (e & He & ->).
      eexists. split; [by rewrite <- !app_assoc|].
      rewrite !filter_app, !length_app, Hlen.
      rewrite (filter_cons _ e), decide_True by done.
      destruct (merges E row);
        [rewrite filter_row_record_warnings|]; simpl; lia. }
  destruct (Hlog evs s) as (xs & Hxs & Hlen).
  by rewrite (new_log_app _ _ xs).
Qed.

Lemma one_log_record_per_row_witness :
  enabled (Py.self (sample_state ∅)) = true
  ∧ length (filter (fun e => row_record e = true)
              (new_log (sample_state ∅)
                 (final (Py.send_events (sample_env [0] true)
                           [row_full; row_no_name; row_no_client_id])
                    (sample_state ∅))))
    = length [row_full; row_no_name; row_no_client_id].
Proof.
  split; [reflexivity|].
  apply (one_log_record_per_row (sample_env [0] true) (sample_state ∅)
           [row_full; row_no_name; row_no_client_id]).
  reflexivity.
Defined.

Lemma elem_of_param_warnings keys rkeys (row : dict) l m :
  (l, m) ∈ param_warnings keys rkeys (map_to_list row) ↔
  ∃ k v, l = WARNING ∧ m = MsgInvalidParam k v
         ∧ row !! k = Some v
         ∧ Py._is_valid_param k v keys = false
         ∧ str_in k rkeys = false.
Proof.
  unfold param_warnings. rewrite list_elem_of_In, in_flat_map. split.
  - intros ([k v] & Hin & He). simpl in He.
    apply list_elem_of_In, elem_of_map_to_list in Hin.
    destruct (Py._is_valid_param k v keys) eqn:Hv; [done|].
    destruct (str_in k rkeys) eqn:Hr; simpl in He; [done|].
    destruct He as [[= <- <-]|[]]. by exists k, v.
  - intros (k & v & -> & -> & Hrow & Hv & Hr). exists (k, v). split.
    + by apply list_elem_of_In, elem_of_map_to_list.
    + simpl. rewrite Hv, Hr. simpl. by left.
Qed.

(** X8: while a record that is not skipped for its name and whose
    [client_id] converts to [str] is processed, a warning is logged for
    a field exactly when the field is not forwarded (its key is reserved
    or its value is falsy) and its key is none of [name], [client_id],
    [user_id]. *)
Theorem invalid_param_warned E (s : Py.state) (row : dict) (k : string)
    (v : value) :
  truthy (dict_get row "name") = true →
  printable E (dict_get row "client_id") = true →
  (WARNING, MsgInvalidParam k v)
    ∈ new_log s (final (Py.send_row_guarded E row) s)
  ↔ row !! k = Some v
    ∧ Py._is_valid_param k v (event_reserved_keys (Py.self s)) = false
    ∧ str_in k (Py._request_keys (Py.self s)) = false.
Proof.
  intros Ht Hp. unfold final. rewrite send_row_guarded_after. simpl.
  destruct (after_row_log E row s) as (e & He & Hlog).
  unfold merges in Hlog. rewrite Ht, Hp in Hlog. simpl in Hlog.
  rewrite (new_log_app _ _ _ Hlog), elem_of_app, elem_of_param_warnings.
  split.
  - intros [(k' & v' & _ & [= <- <-] & H)|Hin]; [done|].
    apply list_elem_of_singleton in Hin. by subst e.
  - intros H. left. by exists k, v.
Qed.

Lemma invalid_param_warned_witness :
  let E := sample_env [] true in
  let s := sample_state ∅ in
  let row := <["uuid" := VStr "u"]> row_numbers in
  (truthy (dict_get row "name") = true
   ∧ printable E (dict_get row "client_id") = true)
  ∧ ((WARNING, MsgInvalidParam "uuid" (VStr "u"))
       ∈ new_log s (final (Py.send_row_guarded E row) s)
     ↔ row !! "uuid" = Some (VStr "u")
       ∧ Py._is_valid_param "uuid" (VStr "u")
           (event_reserved_keys (Py.self s)) = false
       ∧ str_in "uuid" (Py._request_keys (Py.self s)) = false).
Proof.
  split; [split; vm_compute; reflexivity|].
  apply (invalid_param_warned (sample_env [] true) (sample_state ∅)
           (<["uuid" := VStr "u"]> row_numbers) "uuid" (VStr "u"));
    vm_compute; reflexivity.
Defined.

(** ** The typed entry points *)

Lemma serialisable_list_to_map E (l : list (string * value)) :
  Forall (fun kv => printable E kv.2 = true) l →
  serialisable E (list_to_map l) = true.
Proof.
  rewrite serialisable_spec, Forall_forall. intros Hl k v Hk.
  apply elem_of_list_to_map_2 in Hk. by apply (Hl (k, v)).
Qed.

Lemma send_events_single E s row n :
  enabled (Py.self s) = true →
  row !! "name" = Some (VStr n) → n ≠ "" →
  serialisable E (Py.fixed_dimensions (Py.self s)) = true →
  serialisable E row = true →
  new_requests s (final (Py.send_events E [row]) s) = [request_of E row n s].
Proof.
  intros Hg Hn Hne Hfd Hrow. rewrite final_send_events by done.
  destruct (serialisable_sendable E row s Hrow Hfd) as (Hp & Hs & _).
  apply new_requests_app. simpl. by apply after_row_sent_named.
Qed.

Lemma Forall_printable_cons E (a : string * value) l :
  printable E a.2 = true →
  Forall (fun kv : string * value => printable E kv.2 = true) l →
  Forall (fun kv : string * value => printable E kv.2 = true) (a :: l).
Proof. by constructor. Qed.

Lemma standard_event_reserved_keys t :
  standard_keys t →
  event_reserved_keys t =
  ["api_secret"; "measurement_id"; "app_instance_id"; "uuid";
   "timestamp_micros"; "name"; "client_id"; "user_id"].
Proof. intros [Hr Hq]. unfold event_reserved_keys. by rewrite Hr, Hq. Qed.

(** X9: for an enabled reporter with the key lists of the module, whose
    dict has only values that convert to [str], [send_ads_event] issues
    exactly one request, whatever its arguments among the values that
    convert to [str]: the event is named ["ads-event"] and has the
    parameter [event_is_impact_action] set to [True]. *)
Theorem send_ads_event_request E (s : Py.state)
    (event_action event_context ads_platform ads_platform_id ads_resource
       ads_resource_id : value) :
  enabled (Py.self s) = true →
  standard_keys (Py.self s) →
  serialisable E (Py.fixed_dimensions (Py.self s)) = true →
  Forall (fun v => printable E v = true)
    [event_action; event_context; ads_platform; ads_platform_id;
     ads_resource; ads_resource_id] →
  ∃ req params,
    new_requests s
      (final (Py.send_ads_event E event_action event_context ads_platform
                ads_platform_id ads_resource ads_resource_id) s)
    = [req]
    ∧ events (data req) = [Event "ads-event" params]
    ∧ params !! "event_is_impact_action" = Some (VBool true).
Proof.
  intros Hg Hk Hfd Hargs. unfold Py.send_ads_event.
  eexists _, _. split; [|split].
  - apply (send_events_single _ _ _ "ads-event"); [done| |done|done|].
    + vm_compute. reflexivity.
    + apply serialisable_list_to_map.
      repeat (apply Forall_cons in Hargs as [? Hargs]).
      by repeat (apply Forall_printable_cons; [done|]).
  - reflexivity.
  - rewrite lookup_overlay, (standard_event_reserved_keys _ Hk).
    assert ((list_to_map
               [("name", VStr "ads-event");
                ("event_is_impact_action", VBool true);
                ("event_action", event_action);
                ("event_context", event_context);
                ("ads_platform", ads_platform);
                ("ads_platform_id", ads_platform_id);
                ("ads_resource", ads_resource);
                ("ads_resource_id", ads_resource_id)] : dict)
              !! "event_is_impact_action" = Some (VBool true)) as ->
      by (vm_compute; reflexivity).
    reflexivity.
Qed.

Lemma send_ads_event_request_witness :
  let E := sample_env [] true in
  let s := sample_state {[ "deploy_id" := VInt 7 ]} in
  (enabled (Py.self s) = true
   ∧ standard_keys (Py.self s)
   ∧ serialisable E (Py.fixed_dimensions (Py.self s)) = true
   ∧ Forall (fun v => printable E v = true)
       [VStr "audience-created"; VStr "data integration"; VStr "GAds";
        VInt 123456789; VStr "audienceList"; VInt 9812176317])
  ∧ ∃ req params,
      new_requests s
        (final (Py.send_ads_event E
                  (VStr "audience-created") (VStr "data integration")
                  (VStr "GAds") (VInt 123456789) (VStr "audienceList")
                  (VInt 9812176317))
           s)
      = [req]
      ∧ events (data req) = [Event "ads-event" params]
      ∧ params !! "event_is_impact_action" = Some (VBool true).
Proof.
  assert (Forall (fun v => printable (sample_env [] true) v = true)
            [VStr "audience-created"; VStr "data integration"; VStr "GAds";
             VInt 123456789; VStr "audienceList"; VInt 9812176317])
    as Hargs.
  { repeat (constructor; [vm_compute; reflexivity|]). constructor. }
  split;
    [split; [reflexivity | split; [split; reflexivity | split;
      [vm_compute; reflexivity | exact Hargs] ] ] |].
  apply (send_ads_event_request (sample_env [] true)
           (sample_state {[ "deploy_id" := VInt 7 ]}));
    [reflexivity | split; reflexivity | vm_compute; reflexivity
    | exact Hargs].
Defined.

(** X10: for an enabled reporter whose dict has only values that
    convert to [str], [send_custom_event] and [send_error_event] each
    issue exactly one request, whatever their arguments among the values
    that convert to [str], with the event named ["custom-event"] and
    ["error-event"]; an argument is among the parameters exactly when
    it is truthy, unless the dict of the reporter already has its
    key. *)
Theorem send_custom_and_error_event_request E (s : Py.state)
    (a1 a2 a3 a4 : value) :
  enabled (Py.self s) = true →
  standard_keys (Py.self s) →
  serialisable E (Py.fixed_dimensions (Py.self s)) = true →
  Forall (fun v => printable E v = true) [a1; a2; a3; a4] →
  (∃ req params,
     new_requests s (final (Py.send_custom_event E a1 a2 a3) s) = [req]
     ∧ events (data req) = [Event "custom-event" params]
     ∧ params !! "event_action"
       = (if truthy a1 then Some a1
          else Py.fixed_dimensions (Py.self s) !! "event_action")
     ∧ params !! "event_is_impact_action"
       = (if truthy a2 then Some a2
          else Py.fixed_dimensions (Py.self s) !! "event_is_impact_action")
     ∧ params !! "event_context"
       = (if truthy a3 then Some a3
          else Py.fixed_dimensions (Py.self s) !! "event_context"))
  ∧ (∃ req params,
       new_requests s (final (Py.send_error_event E a1 a2 a3 a4) s) = [req]
       ∧ events (data req) = [Event "error-event" params]
       ∧ params !! "error_message"
         = (if truthy a1 then Some a1
            else Py.fixed_dimensions (Py.self s) !! "error_message")
       ∧ params !! "error_code"
         = (if truthy a2 then Some a2
            else Py.fixed_dimensions (Py.self s) !! "error_code")
       ∧ params !! "error_location"
         = (if truthy a3 then Some a3
            else Py.fixed_dimensions (Py.self s) !! "error_location")
       ∧ params !! "error_location_id"
         = (if truthy a4 then Some a4
            else Py.fixed_dimensions (Py.self s) !! "error_location_id")).
Proof.
  intros Hg Hk Hfd Hargs.
  repeat (apply Forall_cons in Hargs as [? Hargs]).
  assert (∀ (row : dict) key v,
            row !! key = Some v →
            str_in key
              ["api_secret"; "measurement_id"; "app_instance_id"; "uuid";
               "timestamp_micros"; "name"; "client_id"; "user_id"] = false →
            overlay (event_reserved_keys (Py.self s)) row
              (Py.fixed_dimensions (Py.self s)) !! key
            = (if truthy v then Some v
               else Py.fixed_dimensions (Py.self s) !! key)) as Hov.
  { intros row key v Hrow Hkey.
    rewrite lookup_overlay, Hrow, is_valid_param_truthy.
    by rewrite (standard_event_reserved_keys _ Hk), Hkey. }
  split.
  - unfold Py.send_custom_event. eexists _, _. split; [|split].
    + apply (send_events_single _ _ _ "custom-event");
        [done| |done|done|].
      * vm_compute. reflexivity.
      * apply serialisable_list_to_map.
        by repeat (apply Forall_printable_cons; [done|]).
    + reflexivity.
    + repeat split; apply Hov; vm_compute; reflexivity.
  - unfold Py.send_error_event. eexists _, _. split; [|split].
    + apply (send_events_single _ _ _ "error-event");
        [done| |done|done|].
      * vm_compute. reflexivity.
      * apply serialisable_list_to_map.
        by repeat (apply Forall_printable_cons; [done|]).
    + reflexivity.
    + repeat split; apply Hov; vm_compute; reflexivity.
Qed.

Lemma send_custom_and_error_event_request_witness :
  let E := sample_env [] true in
  let s := sample_state {[ "deploy_id" := VInt 7 ]} in
  (enabled (Py.self s) = true
   ∧ standard_keys (Py.self s)
   ∧ serialisable E (Py.fixed_dimensions (Py.self s)) = true
   ∧ Forall (fun v => printable E v = true)
       [VStr "leads-generated"; VBool false; VStr ""; VInt 404])
  ∧ ∃ req params,
      new_requests s
        (final (Py.send_custom_event E
                  (VStr "leads-generated") (VBool false) (VStr ""))
           s)
      = [req]
      ∧ events (data req) = [Event "custom-event" params]
      ∧ params !! "event_action"
        = (if truthy (VStr "leads-generated")
           then Some (VStr "leads-generated")
           else Py.fixed_dimensions (Py.self s) !! "event_action")
      ∧ params !! "event_is_impact_action"
        = (if truthy (VBool false) then Some (VBool false)
           else Py.fixed_dimensions (Py.self s)
                  !! "event_is_impact_action")
      ∧ params !! "event_context"
        = (if truthy (VStr "") then Some (VStr "")
           else Py.fixed_dimensions (Py.self s) !! "event_context").
Proof.
  assert (Forall (fun v => printable (sample_env [] true) v = true)
            [VStr "leads-generated"; VBool false; VStr ""; VInt 404])
    as Hargs.
  { repeat (constructor; [vm_compute; reflexivity|]). constructor. }
  split;
    [split; [reflexivity | split; [split; reflexivity | split;
      [vm_compute; reflexivity | exact Hargs] ] ] |].
  destruct (send_custom_and_error_event_request (sample_env [] true)
              (sample_state {[ "deploy_id" := VInt 7 ]})
              (VStr "leads-generated") (VBool false)
              (VStr "") (VInt 404)) as [H _];
    [reflexivity | split; reflexivity | vm_compute; reflexivity
    | exact Hargs | exact H].
Defined.

(** ** The configuration file *)

(** X11: a configuration file that is missing, is not valid YAML or
    is empty does not make the construction fail: the error is logged
    and the reporter is constructed from the direct arguments, as if no
    file had been given. *)
Theorem init_config_unavailable E (a m o : value) (fd : option dict)
    (path : string) (w : world) :
  path ≠ "" →
  yaml_load E path = FileNotFoundError
  ∨ yaml_load E path = YAMLError
  ∨ yaml_load E path = Loaded None →
  Py.__init__ E a m o fd (Some path) w
  = Py.__init__ E a m o fd None
      (World (sent w)
         (log w ++
          match yaml_load E path with
          | FileNotFoundError => [(ERROR, MsgConfigNotFound path)]
          | YAMLError => [(ERROR, MsgConfigYamlError path)]
          | Loaded _ => []
          end)
         (uuid_count w)).
Proof.
  intros Hp Hload. unfold Py.__init__.
  assert (truthy (VStr path) = true) as -> by by destruct path.
  rewrite !bind_run. unfold Py._load_config_from_yaml_file.
  destruct Hload as [-> | [-> | ->] ].
  - rewrite bind_run. unfold logging, modify, ret. done.
  - rewrite bind_run. unfold logging, modify, ret. done.
  - unfold ret. rewrite app_nil_r. by destruct w.
Qed.

Lemma init_config_unavailable_witness :
  ("config.yaml" ≠ ""
   ∧ yaml_load (sample_env [] true) "config.yaml" = FileNotFoundError)
  ∧ Py.__init__ (sample_env [] true) (VStr "1232") (VStr "G-1223214")
      (VBool true) None (Some "config.yaml") empty_world
    = Py.__init__ (sample_env [] true) (VStr "1232") (VStr "G-1223214")
        (VBool true) None None
        (World (sent empty_world)
           (log empty_world ++
            match yaml_load (sample_env [] true) "config.yaml" with
            | FileNotFoundError => [(ERROR, MsgConfigNotFound "config.yaml")]
            | YAMLError => [(ERROR, MsgConfigYamlError "config.yaml")]
            | Loaded _ => []
            end)
           (uuid_count empty_world)).
Proof.
  split; [split; [discriminate|reflexivity]|].
  apply (init_config_unavailable (sample_env [] true) (VStr "1232")
           (VStr "G-1223214") (VBool true) None "config.yaml" empty_world);
    [discriminate|left; reflexivity].
Defined.

(** X12: when the configuration file holds a non-empty mapping, its
    values replace all four direct arguments: the construction is the
    one from the credentials and fixed dimensions of the file, with
    [opt_in] parsed from the file (['false'] when the key is absent; a
    string of the file is taken to be ASCII); the direct arguments are
    ignored, and an [opt_in] of the file that is not a string raises
    [AttributeError]. *)
Theorem init_config_precedence E (a m o : value) (fd : option dict)
    (path : string) (c : config) (w : world) :
  path ≠ "" →
  yaml_load E path = Loaded (Some c) →
  ascii_opt_in c = true →
  Py.__init__ E a m o fd (Some path) w
  = match cfg_opt_in c with
    | None =>
        Py.__init__ E (cfg_api_secret c) (cfg_measurement_id c) (VBool false)
          (cfg_fixed_dimensions c) None w
    | Some (VStr v) =>
        Py.__init__ E (cfg_api_secret c) (cfg_measurement_id c)
          (VBool (String.eqb (str_strip (str_lower v)) "true"))
          (cfg_fixed_dimensions c) None w
    | Some _ => (Raise AttributeError, w)
    end.
Proof.
  intros Hp Hload _. unfold Py.__init__.
  assert (truthy (VStr path) = true) as -> by by destruct path.
  rewrite !bind_run. unfold Py._load_config_from_yaml_file. rewrite Hload.
  unfold ret at 1. cbv beta iota. rewrite bind_run.
  destruct (cfg_opt_in c) as [[| | | |v]|]; try done.
Qed.

Lemma init_config_precedence_witness :
  let c :=
    Config (VStr "1232") (VStr "G-1223214") (Some (VStr "True"))
      (Some {[ "deploy_id" := VStr "bdb40a38-f845-4c04-abdc-1a51528d45e2" ]})
  in
  ("config.yaml" ≠ ""
   ∧ yaml_load (config_env c true) "config.yaml" = Loaded (Some c)
   ∧ ascii_opt_in c = true)
  ∧ Py.__init__ (config_env c true) VNone VNone (VBool false) None
      (Some "config.yaml") empty_world
    = Py.__init__ (config_env c true) (VStr "1232") (VStr "G-1223214")
        (VBool (String.eqb (str_strip (str_lower "True")) "true"))
        (Some {[ "deploy_id" := VStr "bdb40a38-f845-4c04-abdc-1a51528d45e2" ]})
        None empty_world.
Proof.
  split; [split; [discriminate|split; reflexivity]|].
  apply (init_config_precedence
           (config_env
              (Config (VStr "1232") (VStr "G-1223214") (Some (VStr "True"))
                 (Some {[ "deploy_id" :=
                            VStr "bdb40a38-f845-4c04-abdc-1a51528d45e2" ]}))
              true)
           VNone VNone (VBool false) None "config.yaml"
           (Config (VStr "1232") (VStr "G-1223214") (Some (VStr "True"))
              (Some {[ "deploy_id" :=
                         VStr "bdb40a38-f845-4c04-abdc-1a51528d45e2" ]}))
           empty_world);
    [discriminate|reflexivity|reflexivity].
Defined.

(** ** The sanitised name, as a function *)

Lemma str_filter_idemp f s : str_filter f (str_filter f s) = str_filter f s.
Proof.
  induction s as [|c s IH]; [done|]. simpl.
  destruct (f c) eqn:Hc; [|done]. simpl. by rewrite Hc, IH.
Qed.

Lemma str_filter_mem f c s :
  str_mem c (str_filter f s) = true → f c = true ∧ str_mem c s = true.
Proof.
  induction s as [|c' s IH]; [done|]. simpl.
  destruct (f c') eqn:Hc'; simpl.
  - intros [Heq|Hin]%orb_true_iff.
    + apply Ascii.eqb_eq in Heq as ->. split; [done|].
      by rewrite Ascii.eqb_refl.
    + destruct (IH Hin) as [? ->]. by rewrite orb_true_r.
  - intros Hin. destruct (IH Hin) as [? ->]. by rewrite orb_true_r.
Qed.

Lemma str_filter_length f s :
  String.length (str_filter f s) ≤ String.length s.
Proof.
  induction s as [|c s IH]; [done|]. simpl. destruct (f c); simpl; lia.
Qed.

Lemma str_filter_all f s :
  (∀ c, str_mem c s = true → f c = true) → str_filter f s = s.
Proof.
  induction s as [|c s IH]; [done|]. intros Hall. simpl.
  rewrite (Hall c) by (simpl; by rewrite Ascii.eqb_refl).
  rewrite IH; [done|]. intros c' Hc'. apply Hall. simpl.
  by rewrite Hc', orb_true_r.
Qed.

Lemma str_filter_none f s :
  (∀ c, str_mem c s = true → f c = false) → str_filter f s = "".
Proof.
  induction s as [|c s IH]; [done|]. intros Hall. simpl.
  rewrite (Hall c) by (simpl; by rewrite Ascii.eqb_refl).
  apply IH. intros c' Hc'. apply Hall. simpl. by rewrite Hc', orb_true_r.
Qed.

(** X13: [_format_to_alphanumeric] returns, for every string, a string
    made of letters, digits and hyphens only, no longer than its
    argument; it is idempotent, leaves a string of allowed characters
    unchanged and maps a string without any allowed character to the
    empty string; on a value that is not a string it raises
    [TypeError]. *)
Theorem format_to_alphanumeric_spec (s : string) :
  ∃ r,
    Py._format_to_alphanumeric (VStr s) = Ok r
    ∧ Py._format_to_alphanumeric (VStr r) = Ok r
    ∧ (∀ c, str_mem c r = true → in_alphabet c = true ∧ str_mem c s = true)
    ∧ String.length r ≤ String.length s
    ∧ ((∀ c, str_mem c s = true → in_alphabet c = true) → r = s)
    ∧ ((∀ c, str_mem c s = true → in_alphabet c = false) → r = "")
    ∧ (∀ v, (∀ s', v ≠ VStr s') →
         Py._format_to_alphanumeric v = Raise TypeError).
Proof.
  exists (str_filter Py.in_class s). simpl.
  split; [done|]. split; [by rewrite str_filter_idemp|].
  split; [|split; [apply str_filter_length|split; [|split] ] ].
  - intros c Hc. apply str_filter_mem in Hc as [Hc ?].
    by rewrite <- in_class_alphabet.
  - intros Hall. apply str_filter_all. intros c Hc.
    rewrite in_class_alphabet. by apply Hall.
  - intros Hnone. apply str_filter_none. intros c Hc.
    rewrite in_class_alphabet. by apply Hnone.
  - intros v Hv. destruct v; try done. by destruct (Hv s0).
Qed.

(** ** The two validity checks *)

(** X14: with the reserved keys of the two implementations, every
    field that [send_events] forwards is one that [process] forwards as
    well; [process] moreover forwards the values [0] and [False], and
    the fields [api_secret] and [measurement_id] of a record, which
    [send_events] never forwards. *)
Theorem valid_param_implies_validate_param (params : dict) (k : string)
    (v : value) :
  let py_keys := Py._GA_RESERVERD_KEYS ++ Py._GA_REQUEST_KEYS in
  let legacy_keys :=
    Legacy.__reserved_keys (Legacy.__init__ params) ++ ["name"] in
  (Py._is_valid_param k v py_keys = true →
   Legacy._validate_param k v legacy_keys = true)
  ∧ (str_in k legacy_keys = false →
     Legacy._validate_param k (VInt 0) legacy_keys = true
     ∧ Legacy._validate_param k (VBool false) legacy_keys = true
     ∧ Py._is_valid_param k (VInt 0) py_keys = false
     ∧ Py._is_valid_param k (VBool false) py_keys = false)
  ∧ (truthy v = true →
     Legacy._validate_param "api_secret" v legacy_keys = true
     ∧ Legacy._validate_param "measurement_id" v legacy_keys = true
     ∧ Py._is_valid_param "api_secret" v py_keys = false
     ∧ Py._is_valid_param "measurement_id" v py_keys = false).
Proof.
  cbv zeta. split; [|split].
  - unfold Py._is_valid_param, Legacy._validate_param. simpl.
    intros [[Hk Hn]%andb_true_iff Hv]%andb_true_iff.
    rewrite Hn. apply negb_true_iff in Hk. rewrite !orb_false_r in Hk.
    repeat (apply orb_false_iff in Hk as [? Hk]).
    rewrite !orb_false_r.
    assert (String.eqb k "app_instance_id" = false) as -> by done.
    assert (String.eqb k "client_id" = false) as -> by done.
    assert (String.eqb k "uuid" = false) as -> by done.
    assert (String.eqb k "user_id" = false) as -> by done.
    assert (String.eqb k "timestamp_micros" = false) as -> by done.
    assert (String.eqb k "name" = false) as -> by done.
    simpl. by destruct v as [| | | |[]].
  - intros Hk. unfold Py._is_valid_param, Legacy._validate_param.
    rewrite Hk. simpl. by rewrite !andb_false_r.
  - intros Hv. unfold Py._is_valid_param, Legacy._validate_param. simpl.
    by destruct v as [| | | |[]].
Qed.

(** ** The records of [process] *)

Lemma for_each_process_requests E t evs w :
  ∃ xs,
    final (for_each (Legacy.process_row E t) evs) w = world_sent xs w
    ∧ Forall
        (fun req =>
           ∃ row n,
             row ∈ evs ∧ has_client_id row = true
             ∧ row !! "name" = Some (VStr n)
             ∧ req = legacy_request_of E t row n)
        xs.
Proof.
  revert w. induction evs as [|row evs IH]; intros w.
  - exists []. split; [|done]. destruct w. unfold world_sent. simpl.
    by rewrite app_nil_r.
  - unfold final. simpl. rewrite bind_run.
    assert (∃ ys,
              final (Legacy.process_row E t row) w = world_sent ys w
              ∧ Forall
                  (fun req =>
                     ∃ n, has_client_id row = true
                          ∧ row !! "name" = Some (VStr n)
                          ∧ req = legacy_request_of E t row n)
                  ys) as (ys & Hys & Hall).
    { unfold final, has_client_id.
      destruct (process_row_cases E t row w) as [[r ->]|(n & Hc & Hn & Hs)].
      - exists []. split; [|done]. destruct w. unfold world_sent. simpl.
        by rewrite app_nil_r.
      - rewrite (process_row_named _ _ _ n) by done. eexists.
        split; [done|]. constructor; [|done]. by exists n. }
    assert (Forall
              (fun req =>
                 ∃ row0 n,
                   row0 ∈ row :: evs ∧ has_client_id row0 = true
                   ∧ row0 !! "name" = Some (VStr n)
                   ∧ req = legacy_request_of E t row0 n)
              ys) as Hall'.
    { eapply Forall_impl; [exact Hall|].
      intros req (n & ? & ? & ?). exists row, n. split; [left|done]. }
    unfold final in Hys.
    destruct (Legacy.process_row E t row w) as [[[]|e] w1];
      simpl in Hys; subst w1; [|by exists ys].
    destruct (IH (world_sent ys w)) as (zs & Hzs & Hallz).
    unfold final in Hzs. rewrite Hzs. exists (ys ++ zs). split.
    + unfold world_sent. simpl. by rewrite app_assoc.
    + apply Forall_app. split; [done|].
      eapply Forall_impl; [exact Hallz|].
      intros req (row0 & n & ? & ?). exists row0, n. split; [by right|done].
Qed.

(** X15: the parameters of a request of [process] come from its own
    record only: every request that a call issues belongs to a record
    of the batch with a truthy [client_id] and a string name, and its
    parameters are exactly the fields of that record whose key is not
    reserved and whose value is neither [None] nor ['']; nothing is
    carried over from an earlier record. *)
Theorem process_params_from_own_record E (t : Legacy.Tadau)
    (evs : list dict) (w : world) :
  Forall
    (fun req =>
       ∃ row n params,
         row ∈ evs
         ∧ truthy (dict_get row "client_id") = true
         ∧ row !! "name" = Some (VStr n)
         ∧ client_id (data req) = py_str E (dict_get row "client_id")
         ∧ events (data req) = [Event (keep_alphabet n) params]
         ∧ ∀ k,
             params !! k =
             match row !! k with
             | Some v =>
                 if Legacy._validate_param k v
                      (Legacy.__reserved_keys t ++ ["name"])
                 then Some v else None
             | None => None
             end)
    (drop (length (sent w)) (sent (final (Legacy.process E t evs) w))).
Proof.
  destruct (for_each_process_requests E t evs w) as (xs & Hxs & Hall).
  assert (sent (final (Legacy.process E t evs) w) = sent w ++ xs) as ->.
  { unfold final, Legacy.process, try_except. unfold final in Hxs.
    destruct (for_each (Legacy.process_row E t) evs w) as [[[]|e] w1];
      simpl in *; by subst w1. }
  rewrite drop_app_length.
  eapply Forall_impl; [exact Hall|].
  intros req (row & n & Hin & Hc & Hn & ->).
  eexists row, n, _. repeat split; try done.
  - simpl. by rewrite str_filter_in_class.
  - intros k. rewrite map_lookup_filter.
    destruct (row !! k) as [v|]; simpl; [|done].
    destruct (Legacy._validate_param k v _) eqn:Hv.
    + by rewrite option_guard_True.
    + rewrite option_guard_False; [done|]. simpl. congruence.
Qed.

(** X16: the records without a truthy [client_id] are transparent for
    [process]: removing them from the batch changes neither the
    requests nor the result. *)
Theorem process_ignores_records_without_client_id E (t : Legacy.Tadau)
    (evs : list dict) (w : world) :
  Legacy.process E t (filter (fun row => has_client_id row = true) evs) w
  = Legacy.process E t evs w.
Proof.
  unfold Legacy.process, try_except.
  assert (for_each (Legacy.process_row E t)
            (filter (fun row => has_client_id row = true) evs) w
          = for_each (Legacy.process_row E t) evs w) as ->; [|done].
  revert w. induction evs as [|row evs IH]; intros w; [done|].
  rewrite filter_cons. destruct (has_client_id row) eqn:Hc.
  - rewrite decide_True by done. simpl. rewrite !bind_run.
    destruct (Legacy.process_row E t row w) as [[[]|e] w1]; [apply IH|done].
  - rewrite decide_False by congruence. simpl. rewrite bind_run.
    rewrite process_row_skip by done. apply IH.
Qed.

(** ** The parsing of [opt_in] *)

Lemma str_lstrip_app_space pre x :
  all_space pre = true → str_lstrip (pre +:+ x) = str_lstrip x.
Proof.
  induction pre as [|c pre IH]; [done|]. simpl.
  intros [Hc Hpre]%andb_true_iff. rewrite Hc. by apply IH.
Qed.

Lemma str_lstrip_all_space s : all_space s = true → str_lstrip s = "".
Proof.
  induction s as [|c s IH]; [done|]. simpl.
  intros [Hc Hs]%andb_true_iff. rewrite Hc. by apply IH.
Qed.

Lemma str_lstrip_app x suf :
  all_space x = false → str_lstrip (x +:+ suf) = str_lstrip x +:+ suf.
Proof.
  induction x as [|c x IH]; [done|]. simpl.
  destruct (char_isspace c); simpl; [apply IH|done].
Qed.

Lemma rev_app_app a b c :
  String.rev_app (a +:+ b) c = String.rev_app b (String.rev_app a c).
Proof.
  revert c. induction a as [|x a IH]; intros c; [done|]. simpl. apply IH.
Qed.

Lemma str_lstrip_rev_app_space suf y :
  all_space suf = true → str_lstrip (String.rev_app suf y) = str_lstrip y.
Proof.
  revert y. induction suf as [|c suf IH]; intros y; [done|]. simpl.
  intros [Hc Hsuf]%andb_true_iff. rewrite IH by done. simpl. by rewrite Hc.
Qed.

Lemma str_strip_pad pre s suf :
  all_space pre = true → all_space suf = true →
  str_strip (pre +:+ s +:+ suf) = str_strip s.
Proof.
  intros Hpre Hsuf. unfold str_strip.
  rewrite str_lstrip_app_space by done.
  destruct (all_space s) eqn:Hs.
  - rewrite str_lstrip_app_space by done.
    by rewrite (str_lstrip_all_space suf), (str_lstrip_all_space s) by done.
  - rewrite str_lstrip_app by done. unfold String.rev.
    rewrite rev_app_app. by rewrite str_lstrip_rev_app_space.
Qed.

Lemma char_lower_space c : char_isspace c = true → char_lower c = c.
Proof.
  destruct c as [[] [] [] [] [] [] [] []]; vm_compute; intros H;
    first [discriminate H | reflexivity].
Qed.

Lemma str_lower_space s : all_space s = true → str_lower s = s.
Proof.
  induction s as [|c s IH]; [done|]. simpl.
  intros [Hc Hs]%andb_true_iff. unfold str_lower in *. simpl.
  by rewrite char_lower_space, IH.
Qed.

Lemma str_lower_app a b : str_lower (a +:+ b) = str_lower a +:+ str_lower b.
Proof.
  unfold str_lower. induction a as [|c a IH]; [done|]. simpl. by rewrite IH.
Qed.

Lemma char_lower_idemp c : char_lower (char_lower c) = char_lower c.
Proof. destruct c as [[] [] [] [] [] [] [] []]; vm_compute; reflexivity. Qed.

Lemma str_lower_idemp s : str_lower (str_lower s) = str_lower s.
Proof.
  unfold str_lower. induction s as [|c s IH]; [done|]. simpl.
  by rewrite char_lower_idemp, IH.
Qed.

(** X17: [_is_opt_in] does not depend on the case of the letters of
    its argument nor on white space around it: two strings that differ
    only by the case of their letters, or by leading and trailing white
    space, are parsed alike; a value that is not a string raises
    [AttributeError]. *)
Theorem is_opt_in_insensitive :
  (∀ pre s suf, all_space pre = true → all_space suf = true →
     Py._is_opt_in (VStr (pre +:+ s +:+ suf)) = Py._is_opt_in (VStr s))
  ∧ (∀ s s', str_lower s = str_lower s' →
       Py._is_opt_in (VStr s) = Py._is_opt_in (VStr s'))
  ∧ (∀ s, Py._is_opt_in (VStr (str_lower s)) = Py._is_opt_in (VStr s))
  ∧ (∀ v, (∀ s, v ≠ VStr s) → Py._is_opt_in v = Raise AttributeError).
Proof.
  split; [|split; [|split] ].
  - intros pre s suf Hpre Hsuf. unfold Py._is_opt_in.
    rewrite !str_lower_app.
    rewrite (str_lower_space pre), (str_lower_space suf) by done.
    by rewrite str_strip_pad by done.
  - intros s s' H. unfold Py._is_opt_in. by rewrite H.
  - intros s. unfold Py._is_opt_in. by rewrite str_lower_idemp.
  - intros v Hv. destruct v; try done. by destruct (Hv s).
Qed.

Lemma is_opt_in_insensitive_witness :
  (all_space " " = true ∧ all_space "  " = true)
  ∧ Py._is_opt_in (VStr (" " +:+ "True" +:+ "  "))
    = Py._is_opt_in (VStr "True").
Proof.
  split; [split; reflexivity|].
  destruct is_opt_in_insensitive as [H _].
  apply (H " " "True" "  "); reflexivity.
Defined.

(** ** The order of the requests *)

Lemma after_rows_request_names E evs s :
  serialisable E (Py.fixed_dimensions (Py.self s)) = true →
  Forall (fun row => serialisable E row = true) evs →
  map request_names (new_requests s (after_rows E evs s))
  = map (fun row => [keep_alphabet (row_name row)])
      (filter (fun row => named row = true) evs).
Proof.
  revert s. induction evs as [|row evs IH]; intros s Hfd Hall.
  - simpl. by rewrite new_requests_same.
  - apply Forall_cons in Hall as [Hrow Hall].
    destruct (serialisable_sendable E row s Hrow Hfd) as (Hp & Hs & Hfd').
    rewrite after_rows_cons, filter_cons.
    destruct (after_rows_sent_prefix E evs (after_row E row s)) as [new Hnew].
    pose proof (IH (after_row E row s) Hfd' Hall) as Hrest.
    rewrite (new_requests_app _ _ new) in Hrest by done.
    destruct (named row) eqn:Hnamed.
    + rewrite decide_True by done.
      apply named_spec in Hnamed as (n & Hn & Hne).
      rewrite (new_requests_app _ _ ([request_of E row n s] ++ new)).
      * assert (row_name row = n) as Hrn by (unfold row_name; by rewrite Hn).
        rewrite map_app, Hrest. simpl. rewrite Hrn.
        unfold request_names at 1. simpl. by rewrite str_filter_in_class.
      * rewrite Hnew, (after_row_sent_named _ _ n) by done.
        by rewrite <- app_assoc.
    + rewrite decide_False by congruence.
      rewrite (new_requests_app _ _ new); [done|].
      by rewrite Hnew, after_row_sent_unnamed.
Qed.

(** X18: an enabled reporter whose dict and whose records have only
    values that convert to [str] issues its requests in the order of the
    batch, one per record whose name is a non-empty string: the event
    names of the requests of a call are the sanitised names of those
    records, in the same order, whatever the transport does. *)
Theorem requests_in_batch_order E (s : Py.state) (evs : list dict) :
  enabled (Py.self s) = true →
  serialisable E (Py.fixed_dimensions (Py.self s)) = true →
  Forall (fun row => serialisable E row = true) evs →
  map request_names (new_requests s (final (Py.send_events E evs) s))
  = map (fun row => [keep_alphabet (row_name row)])
      (filter (fun row => named row = true) evs).
Proof.
  intros Hg Hfd Hall. unfold final. rewrite send_events_enabled by done.
  simpl. case_bool_decide as Hevs.
  - subst evs. by rewrite new_requests_same.
  - by apply after_rows_request_names.
Qed.

Lemma requests_in_batch_order_witness :
  let E := sample_env [0] true in
  let s := sample_state {[ "deploy_id" := VInt 7 ]} in
  let evs := [row_numbers; row_no_name; row_no_client_id] in
  (enabled (Py.self s) = true
   ∧ serialisable E (Py.fixed_dimensions (Py.self s)) = true
   ∧ Forall (fun row => serialisable E row = true) evs)
  ∧ map request_names (new_requests s (final (Py.send_events E evs) s))
    = map (fun row => [keep_alphabet (row_name row)])
        (filter (fun row => named row = true) evs).
Proof.
  assert (Forall (fun row => serialisable (sample_env [0] true) row = true)
            [row_numbers; row_no_name; row_no_client_id]) as Hall.
  { repeat (constructor; [vm_compute; reflexivity|]). constructor. }
  split; [split; [reflexivity | split; [vm_compute; reflexivity | exact Hall] ] |].
  apply (requests_in_batch_order (sample_env [0] true)
           (sample_state {[ "deploy_id" := VInt 7 ]})
           [row_numbers; row_no_name; row_no_client_id]);
    [reflexivity | vm_compute; reflexivity | exact Hall].
Defined.

(** ** Names that are empty before or after sanitising *)

(** X19: [send_events] tests the name before it sanitises it, and
    [process] does not test it at all. A record whose name is a
    non-empty string without any letter, digit or hyphen is therefore
    sent by [send_events] with the empty event name, when its values and
    those of the reporter convert to [str]; a record whose name is the
    empty string is skipped by [send_events] and sent by [process], with
    the empty event name, when it has a [client_id] and its payload and
    URL can be built and serialised. *)
Theorem empty_event_names E (row : dict) (n : string) :
  row !! "name" = Some (VStr n) →
  (∀ c, str_mem c n = true → in_alphabet c = false) →
  (∀ s, enabled (Py.self s) = true → n ≠ "" →
     serialisable E (Py.fixed_dimensions (Py.self s)) = true →
     serialisable E row = true →
     ∃ req,
       new_requests s (final (Py.send_events E [row]) s) = [req]
       ∧ request_names req = [""])
  ∧ (∀ s, n = "" →
       new_requests s (final (Py.send_events E [row]) s) = [])
  ∧ (∀ t w, truthy (dict_get row "client_id") = true →
       legacy_sendable E t row = true →
       ∃ req,
         sent (final (Legacy.process E t [row]) w) = sent w ++ [req]
         ∧ request_names req = [""]).
Proof.
  intros Hn Hnone.
  assert (str_filter Py.in_class n = "") as Hempty.
  { apply str_filter_none. intros c Hc. rewrite in_class_alphabet.
    by apply Hnone. }
  split; [|split].
  - intros s Hg Hne Hfd Hrow. eexists.
    split; [by apply send_events_single|].
    unfold request_names. simpl. by rewrite Hempty.
  - intros s ->.
    destruct (send_events_new_requests E [row] s) as [|req l Hreq _];
      [done|].
    destruct Hreq as (pre & row0 & post & n & Heq & Hn0 & Hne & _).
    assert (row0 = row) as ->.
    { destruct pre as [|r [|? ?] ]; simplify_eq/=; done. }
    rewrite Hn in Hn0. by simplify_eq.
  - intros t w Hc Hs. unfold final, Legacy.process, try_except. simpl.
    rewrite bind_run, (process_row_named _ _ _ n) by done.
    eexists.
    split; [by destruct (requests_post E _ _)|].
    unfold request_names. simpl. by rewrite Hempty.
Qed.

Lemma empty_event_names_witness :
  let E := sample_env [] true in
  let s := sample_state {[ "deploy_id" := VInt 7 ]} in
  let t := Legacy.__init__ ∅ in
  let row : dict :=
    list_to_map [("name", VStr "!?"); ("client_id", VInt 123)] in
  (row !! "name" = Some (VStr "!?")
   ∧ (∀ c, str_mem c "!?" = true → in_alphabet c = false)
   ∧ enabled (Py.self s) = true
   ∧ "!?" ≠ ""
   ∧ serialisable E (Py.fixed_dimensions (Py.self s)) = true
   ∧ serialisable E row = true
   ∧ truthy (dict_get row "client_id") = true
   ∧ legacy_sendable E t row = true)
  ∧ (∃ req,
       new_requests s (final (Py.send_events E [row]) s) = [req]
       ∧ request_names req = [""])
  ∧ (∃ req,
       sent (final (Legacy.process E t [row]) empty_world)
       = sent empty_world ++ [req]
       ∧ request_names req = [""]).
Proof.
  assert (∀ c, str_mem c "!?" = true → in_alphabet c = false) as Hnone.
  { intros c. simpl. rewrite orb_false_r.
    intros [->%Ascii.eqb_eq | ->%Ascii.eqb_eq]%orb_true_iff; reflexivity. }
  split;
    [split; [reflexivity | split; [exact Hnone | split; [reflexivity | split;
      [discriminate | split; [vm_compute; reflexivity | split;
        [vm_compute; reflexivity | split;
          [reflexivity | vm_compute; reflexivity] ] ] ] ] ] ] |].
  destruct (empty_event_names (sample_env [] true)
              (list_to_map [("name", VStr "!?"); ("client_id", VInt 123)])
              "!?") as (Hpy & _ & Hlegacy);
    [reflexivity | exact Hnone |].
  split.
  - apply (Hpy (sample_state {[ "deploy_id" := VInt 7 ]}));
      [reflexivity | discriminate | vm_compute; reflexivity
      | vm_compute; reflexivity].
  - apply (Hlegacy (Legacy.__init__ ∅) empty_world);
      [reflexivity | vm_compute; reflexivity].
Defined.
